(** * Symbol rename: provider fallback chain and rename session controller

    A shallow embedding of [vs/editor/contrib/rename/rename.ts]:
    the class [RenameSkeleton] (provider chain), the function [rename],
    the class [RenameController] (one interactive session) and the API
    bridge command [_executeDocumentRenameProvider].

    Asynchronous code is sequenced on one cooperative thread.  Every
    [await] is a point where a collaborator settles (resolves or
    rejects) and where the user may have touched the editor in the
    meantime; both are part of the collaborator's answer ([Async]). *)

From Equations Require Import Equations.
From Stdlib Require Import ZArith List String Ascii Bool Arith Lia.
Import ListNotations.
Local Open Scope string_scope.
Local Open Scope list_scope.

Set Implicit Arguments.

(** ** Values of the editor core *)

(** [vs/editor/common/core/position]: a line and a column, 1-based. *)
Module Position.
Record t : Type := make { lineNumber : Z; column : Z }.

Definition equals (a b : t) : bool :=
  (lineNumber a =? lineNumber b)%Z && (column a =? column b)%Z.
End Position.

(** [vs/editor/common/core/range]: the four numbers of [IRange]. *)
Module Range.
Record t : Type := make {
  startLineNumber : Z;
  startColumn : Z;
  endLineNumber : Z;
  endColumn : Z
}.

(** [Range.lift(r).getStartPosition()] *)
Definition getStartPosition (r : t) : Position.t :=
  Position.make (startLineNumber r) (startColumn r).

(** Modelled from the spec: [Range.isEmpty] is missing from the sources
    at hand; a selection is "non-empty" when its two ends differ. *)
Definition isEmpty (r : t) : bool :=
  (startLineNumber r =? endLineNumber r)%Z && (startColumn r =? endColumn r)%Z.

(** Modelled from the spec: [Range.spansMultipleLines] is missing from
    the sources at hand; a selection is "single-line" when it does not
    end on a later line than it starts. *)
Definition spansMultipleLines (r : t) : bool :=
  (startLineNumber r <? endLineNumber r)%Z.

(** Modelled from the spec: [Range.containsRange] is missing from the
    sources at hand; [other] is "fully contained" in [r] when none of
    its ends lies before the start or after the end of [r]. *)
Definition containsRange (r other : t) : bool :=
  if ((startLineNumber other <? startLineNumber r)
      || (endLineNumber other <? startLineNumber r))%Z then false
  else if ((endLineNumber r <? startLineNumber other)
      || (endLineNumber r <? endLineNumber other))%Z then false
  else if ((startLineNumber other =? startLineNumber r)
      && (startColumn other <? startColumn r))%Z then false
  else if ((endLineNumber other =? endLineNumber r)
      && (endColumn r <? endColumn other))%Z then false
  else true.

Definition equalsRange (a b : t) : bool :=
  (startLineNumber a =? startLineNumber b)%Z && (startColumn a =? startColumn b)%Z
  && (endLineNumber a =? endLineNumber b)%Z && (endColumn a =? endColumn b)%Z.
End Range.

(** [IWordAtPosition], the answer of [ITextModel.getWordAtPosition]. *)
Module Word.
Record t : Type := make { word : string; startColumn : Z; endColumn : Z }.
End Word.

(** [modes.RenameLocation] *)
Record RenameLocation : Type := { range : Range.t; text : string }.

(** One text edit of a [WorkspaceEdit]: resource, range, replacement. *)
Record ResourceTextEdit : Type :=
  { resource : string; editRange : Range.t; newText : string }.

(** [modes.WorkspaceEdit]; [None] stands for [undefined]. *)
Record WorkspaceEdit : Type :=
  { edits : option (list ResourceTextEdit); rejectReason : option string }.

(** JavaScript truthiness of an optional string: [undefined] and the
    empty string are falsy. *)
Definition truthy (s : option string) : bool :=
  match s with
  | Some (String _ _) => true
  | _ => false
  end.

(** [text.length] *)
Definition jsLength (s : string) : Z := Z.of_nat (String.length s).

(** [rejects.join('\n')] *)
Definition newline : string := String (ascii_of_nat 10) EmptyString.
Definition join (rejects : list string) : string := String.concat newline rejects.

(** [nls.localize('no result', "No result.")] *)
Definition noResult : string := "No result.".

(** ** The editor and the world around it *)

(** What a session reads from [ICodeEditor]: the cursor, the version of
    the document's content, the selection and the scroll offsets. *)
Record Editor : Type := {
  getPosition : Position.t;
  getVersionId : Z;
  getSelection : Range.t;
  getScrollLeft : Z;
  getScrollTop : Z
}.

(** Errors travelling through rejected promises and thrown exceptions. *)
Inductive Err : Type :=
| TypeError (msg : string)          (* reading a property of [undefined] *)
| IllegalArgument (name : string)   (* [illegalArgument(name)] *)
| Thrown (e : string).              (* raised by a collaborator *)

Definition message (e : Err) : string :=
  match e with
  | TypeError msg => "TypeError: " ++ msg
  | IllegalArgument name => "Illegal argument: " ++ name
  | Thrown e => e
  end.

(** How the promise of a collaborator settles. *)
Inductive Settled (A : Type) : Type :=
| Resolved (a : A)
| Rejected (e : string).
Arguments Rejected {A} e.

(** A pending promise: how it settles, and what the user has done to
    the editor by the time it does. *)
Record Async (A : Type) : Type := {
  settled : Settled A;
  meanwhile : Editor -> Editor
}.

(** [ITextModel]: the document; its word lookup is taken as given. *)
Record ITextModel : Type := {
  uri : string;
  getWordAtPosition : Position.t -> option Word.t
}.

(** [modes.RenameProvider]; [resolveRenameLocation] is optional. *)
Module RenameProvider.
Record t : Type := {
  resolveRenameLocation :
    option (ITextModel -> Position.t -> Async (option RenameLocation));
  provideRenameEdits :
    ITextModel -> Position.t -> string -> Async (option WorkspaceEdit)
}.
End RenameProvider.

(** A provider invocation as observed from outside: which provider of
    the chain, with which arguments, and what it answered. *)
Inductive ProviderCall : Type :=
| ResolveLocationCall (i : nat) (at_ : Position.t)
    (answer : Settled (option RenameLocation))
| ProvideEditsCall (i : nat) (at_ : Position.t) (newName : string)
    (answer : Settled (option WorkspaceEdit)).

(** [RenameInputField.getInput] resolves to the new name or to a flag
    telling whether to give the focus back. *)
Inductive NewNameOrFocusFlag : Type :=
| NewName (s : string)
| FocusFlag (b : bool).

(** What the session does to its user interface collaborators. *)
Inductive UiEvent : Type :=
| ContextKeySet (b : bool)                      (* _renameInputVisible.set *)
| ContextKeyReset                               (* _renameInputVisible.reset *)
| GetInput (r : Range.t) (txt : string) (selectionStart selectionEnd : Z)
| Focus                                         (* editor.focus *)
| ShowMessage (msg : string) (at_ : Position.t) (* MessageController *)
| NotifyInfo (msg : string)                     (* _notificationService.info *)
| NotifyError (msg : string)                    (* _notificationService.error *)
| ShowWhile (delay : Z)                         (* _progressService.showWhile *)
| Apply (edit : WorkspaceEdit)                  (* _bulkEditService.apply *)
| Alert (msg : string).                         (* aria alert *)

Record World : Type := {
  editor : Editor;
  renameInputVisible : bool;       (* CONTEXT_RENAME_INPUT_VISIBLE *)
  calls : list ProviderCall;       (* provider invocations, oldest first *)
  ui : list UiEvent                (* user interface effects, oldest first *)
}.

(** ** Computations: state passing with failure *)

Inductive Result (A : Type) : Type :=
| Ok (a : A)
| Fail (e : Err).
Arguments Fail {A} e.

Definition M (A : Type) : Type := World -> World * Result A.

Definition ret {A} (a : A) : M A := fun w => (w, Ok a).
Definition throw {A} (e : Err) : M A := fun w => (w, Fail e).
Definition bind {A B} (m : M A) (k : A -> M B) : M B :=
  fun w => match m w with
           | (w', Ok a) => k a w'
           | (w', Fail e) => (w', Fail e)
           end.
(** [p.then(ok, err)] and [try { } catch]: observe how [m] ended. *)
Definition attempt {A} (m : M A) : M (Result A) :=
  fun w => let (w', r) := m w in (w', Ok r).

Declare Scope session_scope.
Delimit Scope session_scope with session.
Notation "x <- m ;; k" := (bind m (fun x => k))
  (at level 61, m at next level, right associativity) : session_scope.
Notation "m ;; k" := (bind m (fun _ => k))
  (at level 61, right associativity) : session_scope.

Definition getEditor : M Editor := fun w => (w, Ok (editor w)).
Definition emit (e : UiEvent) : M unit :=
  fun w => ({| editor := editor w; renameInputVisible := renameInputVisible w;
               calls := calls w; ui := ui w ++ [e] |}, Ok tt).
Definition setVisible (b : bool) : M unit :=
  fun w => ({| editor := editor w; renameInputVisible := b;
               calls := calls w; ui := ui w ++ [ContextKeySet b] |}, Ok tt).
(** [reset] puts the key back to its default, [false]. *)
Definition resetVisible : M unit :=
  fun w => ({| editor := editor w; renameInputVisible := false;
               calls := calls w; ui := ui w ++ [ContextKeyReset] |}, Ok tt).

(** Awaiting a provider: the user's activity reaches the editor, the
    invocation is recorded, the answer comes back. *)
Definition awaitProvider {A} (call : Settled A -> ProviderCall) (p : Async A)
  : World -> World * Settled A :=
  fun w => ({| editor := meanwhile p (editor w);
               renameInputVisible := renameInputVisible w;
               calls := calls w ++ [call (settled p)];
               ui := ui w |}, settled p).

(** Awaiting a user interface service: [e] records the request. *)
Definition awaitUi {A} (e : UiEvent) (p : Async A) : M A :=
  fun w => let w' := {| editor := meanwhile p (editor w);
                        renameInputVisible := renameInputVisible w;
                        calls := calls w;
                        ui := ui w ++ [e] |} in
           match settled p with
           | Resolved a => (w', Ok a)
           | Rejected err => (w', Fail (Thrown err))
           end.

Definition inspect {A} (a : A) : { b : A | a = b } := exist _ a eq_refl.

(** ** class RenameSkeleton *)

Module RenameSkeleton.

Record t : Type := {
  model : ITextModel;
  position : Position.t;
  _provider : list RenameProvider.t
}.

(** [constructor]: the chain is [RenameProviderRegistry.ordered(model)]. *)
Definition new (ordered : ITextModel -> list RenameProvider.t)
    (model : ITextModel) (position : Position.t) : t :=
  {| model := model; position := position; _provider := ordered model |}.

Definition hasProvider (this : t) : bool :=
  (0 <? List.length (_provider this))%nat.

Definition resolveRenameLocation (this : t) : M (option RenameLocation) :=
  fun w =>
    match _provider this with
    | [] =>
        (w, Fail (TypeError "Cannot read property 'resolveRenameLocation' of undefined"))
    | provider :: _ =>
        let fallback (w : World) :=
          match getWordAtPosition (model this) (position this) with
          | Some word =>
              (w, Ok (Some {| range := Range.make (Position.lineNumber (position this))
                                         (Word.startColumn word)
                                         (Position.lineNumber (position this))
                                         (Word.endColumn word);
                              text := Word.word word |}))
          | None => (w, Ok None)
          end in
        match RenameProvider.resolveRenameLocation provider with
        | Some resolve =>
            match awaitProvider (ResolveLocationCall 0 (position this))
                    (resolve (model this) (position this)) w with
            | (w', Rejected e) => (w', Fail (Thrown e))
            | (w', Resolved (Some res)) => (w', Ok (Some res))
            | (w', Resolved None) => fallback w'
            end
        | None => fallback w
        end
    end.

Equations? provideRenameEdits (this : t) (newName : string) (i : nat)
    (rejects : list string) (position : Position.t) (w : World)
  : World * Result WorkspaceEdit by wf (List.length (_provider this) - i) lt :=
  provideRenameEdits this newName i rejects position w
    with inspect (nth_error (_provider this) i) := {
    | exist _ None _ =>
        (w, Ok {| edits := None; rejectReason := Some (join rejects) |});
    | exist _ (Some provider) _
        with awaitProvider (ProvideEditsCall i (RenameSkeleton.position this) newName)
               (RenameProvider.provideRenameEdits provider (model this)
                  (RenameSkeleton.position this) newName) w := {
        | (w', Rejected e) => (w', Fail (Thrown e));
        | (w', Resolved None) =>
            provideRenameEdits this newName (S i) (rejects ++ [noResult])
              (RenameSkeleton.position this) w';
        | (w', Resolved (Some result)) with rejectReason result := {
            | Some (String c s) =>
                provideRenameEdits this newName (S i) (rejects ++ [String c s])
                  (RenameSkeleton.position this) w';
            | _ => (w', Ok result) } } }.
Proof.
  all: assert (i < List.length (_provider this))%nat
    by (apply nth_error_Some; congruence); lia.
Qed.

End RenameSkeleton.

(** [export async function rename]: [i], [rejects] and [position] take
    their default values. *)
Definition rename (ordered : ITextModel -> list RenameProvider.t)
    (model : ITextModel) (position : Position.t) (newName : string)
  : M WorkspaceEdit :=
  let skeleton := RenameSkeleton.new ordered model position in
  RenameSkeleton.provideRenameEdits skeleton newName 0 []
    (RenameSkeleton.position skeleton).

(** ** Editor state snapshot *)

(** Modelled from the spec: [EditorState] is missing from the sources at
    hand; it is a fingerprint of position, document content version,
    selection and scroll (the four flags [run] asks for), captured once
    and only compared for equality with the editor's current state. *)
Module EditorState.
Record t : Type := {
  position : Position.t;
  modelVersionId : Z;
  selection : Range.t;
  scrollLeft : Z;
  scrollTop : Z
}.

Definition new (e : Editor) : t :=
  {| position := getPosition e;
     modelVersionId := getVersionId e;
     selection := getSelection e;
     scrollLeft := getScrollLeft e;
     scrollTop := getScrollTop e |}.

Definition equals (a b : t) : bool :=
  (modelVersionId a =? modelVersionId b)%Z
  && ((scrollLeft a =? scrollLeft b)%Z && (scrollTop a =? scrollTop b)%Z)
  && Position.equals (position a) (position b)
  && Range.equalsRange (selection a) (selection b).

Definition validate (this : t) (e : Editor) : bool := equals this (new e).
End EditorState.

(** ** class RenameController *)

(** The result of [IBulkEditService.apply]. *)
Record BulkEditResult : Type := { ariaSummary : string }.

Definition nonEmpty (s : string) : bool :=
  match s with
  | String _ _ => true
  | EmptyString => false
  end.

(** [nls.localize('aria', "Successfully renamed '{0}' to '{1}'. Summary: {2}", ...)] *)
Definition ariaMessage (oldName newName summary : string) : string :=
  "Successfully renamed '" ++ oldName ++ "' to '" ++ newName
    ++ "'. Summary: " ++ summary.

Module RenameController.

(** The collaborators of one controller: the document shown by its
    editor, the provider registry, the input widget and the bulk edit
    service. *)
Record t : Type := {
  getModel : ITextModel;
  ordered : ITextModel -> list RenameProvider.t;
  getInput : Range.t -> string -> Z -> Z -> Async NewNameOrFocusFlag;
  apply : WorkspaceEdit -> Async BulkEditResult
}.

(** Lines 151-158 of [run]: the part of the symbol text that the input
    widget pre-selects. *)
Definition inputSelection (loc : RenameLocation) (selection : Range.t) : Z * Z :=
  if negb (Range.isEmpty selection)
     && negb (Range.spansMultipleLines selection)
     && Range.containsRange (range loc) selection
  then (Z.max 0 (Range.startColumn selection - Range.startColumn (range loc)),
        Z.min (Range.endColumn (range loc)) (Range.endColumn selection)
          - Range.startColumn (range loc))%Z
  else (0%Z, jsLength (text loc)).

(** The fulfilment callback of [provideRenameEdits(...).then]. *)
Definition onEditsResolved (this : t) (loc : RenameLocation) (newName : string)
    (state : EditorState.t) (result : WorkspaceEdit) : M unit :=
  match rejectReason result with
  | Some (String c s) =>
      (ed <- getEditor ;;
       if EditorState.validate state ed
       then emit (ShowMessage (String c s) (getPosition ed))
       else emit (NotifyInfo (String c s)))%session
  | _ =>
      (applied <- awaitUi (Apply result) (apply this result) ;;
       if nonEmpty (ariaSummary applied)
       then emit (Alert (ariaMessage (text loc) newName (ariaSummary applied)))
       else ret tt)%session
  end.

(** The rejection callback of [provideRenameEdits(...).then]. *)
Definition onEditsRejected (err : Err) : M unit :=
  (emit (NotifyError "Rename failed to execute.") ;; throw err)%session.

(** The fulfilment callback of [getInput(...).then].  The progress
    indicator is registered before any answer of the chain is
    handled. *)
Definition onInputResolved (this : t) (skeleton : RenameSkeleton.t)
    (loc : RenameLocation) (newNameOrFocusFlag : NewNameOrFocusFlag) : M unit :=
  (resetVisible ;;
   match newNameOrFocusFlag with
   | FocusFlag b => if b then emit Focus else ret tt
   | NewName newName =>
       emit Focus ;;
       ed <- getEditor ;;
       let state := EditorState.new ed in
       emit (ShowWhile 250) ;;
       outcome <- attempt (RenameSkeleton.provideRenameEdits skeleton newName 0 []
                             (Range.getStartPosition (range loc))) ;;
       match outcome with
       | Ok result => onEditsResolved this loc newName state result
       | Fail err => onEditsRejected err
       end
   end)%session.

(** The rejection callback of [getInput(...).then]. *)
Definition onInputRejected (err : Err) : M unit :=
  (resetVisible ;; throw err)%session.

Definition run (this : t) : M unit :=
  (ed <- getEditor ;;
   let position := getPosition ed in
   let skeleton := RenameSkeleton.new (ordered this) (getModel this) position in
   if negb (RenameSkeleton.hasProvider skeleton) then ret tt
   else
     located <- attempt (RenameSkeleton.resolveRenameLocation skeleton) ;;
     match located with
     | Fail e => emit (ShowMessage (message e) position)
     | Ok None => ret tt
     | Ok (Some loc) =>
         ed <- getEditor ;;
         let '(selectionStart, selectionEnd) := inputSelection loc (getSelection ed) in
         setVisible true ;;
         input <- attempt (awaitUi (GetInput (range loc) (text loc)
                                      selectionStart selectionEnd)
                             (getInput this (range loc) (text loc)
                                selectionStart selectionEnd)) ;;
         match input with
         | Ok newNameOrFocusFlag => onInputResolved this skeleton loc newNameOrFocusFlag
         | Fail err => onInputRejected err
         end
     end)%session.

End RenameController.

(** ** API bridge command *)

(** The values a command argument can take, as far as [typeof] tells
    them apart. *)
Inductive JsValue : Type :=
| JsUndefined
| JsNull
| JsBoolean (b : bool)
| JsNumber (n : Z)
| JsString (s : string)
| JsObject.

(** [args.newName]: a missing property reads as [undefined]. *)
Fixpoint getProperty (props : list (string * JsValue)) (name : string) : JsValue :=
  match props with
  | [] => JsUndefined
  | (k, v) :: rest => if String.eqb k name then v else getProperty rest name
  end.

(** [registerDefaultLanguageCommand('_executeDocumentRenameProvider', ...)] *)
Definition _executeDocumentRenameProvider
    (ordered : ITextModel -> list RenameProvider.t)
    (model : ITextModel) (position : Position.t) (args : list (string * JsValue))
  : M WorkspaceEdit :=
  match getProperty args "newName" with
  | JsString newName => rename ordered model position newName
  | _ => throw (IllegalArgument "newName")
  end.

(** ** The chain seen from outside *)

Section Chain.
Variable this : RenameSkeleton.t.
Variable newName : string.

(** What provider [p] answers when the chain reaches it. *)
Definition answerOf (p : RenameProvider.t) : Settled (option WorkspaceEdit) :=
  settled (RenameProvider.provideRenameEdits p (RenameSkeleton.model this)
             (RenameSkeleton.position this) newName).

(** The reason the chain records when an answer makes it move on:
    no result at all, or a result with a truthy [rejectReason]. *)
Definition reasonOf (a : Settled (option WorkspaceEdit)) : option string :=
  match a with
  | Resolved None => Some noResult
  | Resolved (Some result) =>
      match rejectReason result with
      | Some (String c s) => Some (String c s)
      | _ => None
      end
  | Rejected _ => None
  end.

Definition callOf (i : nat) (p : RenameProvider.t) : ProviderCall :=
  ProvideEditsCall i (RenameSkeleton.position this) newName (answerOf p).

(** The invocations of the providers [l], numbered from [i] on. *)
Fixpoint callsOn (i : nat) (l : list RenameProvider.t) : list ProviderCall :=
  match l with
  | [] => []
  | p :: l' => callOf i p :: callsOn (S i) l'
  end.

(** [Walked i rest rejects cs r]: from provider [i] on, with [rest] the
    providers left and [rejects] the reasons so far, the chain makes
    the invocations [cs] and ends in [r]. *)
Inductive Walked : nat -> list RenameProvider.t -> list string ->
                   list ProviderCall -> Result WorkspaceEdit -> Prop :=
| WalkedOut i rejects :
    Walked i [] rejects []
      (Ok {| edits := None; rejectReason := Some (join rejects) |})
| WalkedOn i p rest rejects reason cs r :
    reasonOf (answerOf p) = Some reason ->
    Walked (S i) rest (rejects ++ [reason]) cs r ->
    Walked i (p :: rest) rejects (callOf i p :: cs) r
| WalkedWin i p rest rejects result :
    answerOf p = Resolved (Some result) ->
    truthy (rejectReason result) = false ->
    Walked i (p :: rest) rejects [callOf i p] (Ok result)
| WalkedThrow i p rest rejects e :
    answerOf p = Rejected e ->
    Walked i (p :: rest) rejects [callOf i p] (Fail (Thrown e)).

(** Provider [p] fails with [reason] and lets the chain move on. *)
Definition failsWith (p : RenameProvider.t) (reason : string) : Prop :=
  reasonOf (answerOf p) = Some reason.
End Chain.

(** The context key replayed over a stretch of user interface events. *)
Definition visibleAfter (b : bool) (evs : list UiEvent) : bool :=
  fold_left (fun b e => match e with
                        | ContextKeySet b' => b'
                        | ContextKeyReset => false
                        | _ => b
                        end) evs b.

(** Events that neither raise the context key nor show the widget. *)
Definition quiet (e : UiEvent) : bool :=
  match e with
  | ContextKeySet _ | GetInput _ _ _ _ => false
  | _ => true
  end.

(** The first provider supplies no rename location: it lacks the
    capability, or it resolves to nothing. *)
Definition noOverride (this : RenameSkeleton.t) (provider : RenameProvider.t) : Prop :=
  match RenameProvider.resolveRenameLocation provider with
  | None => True
  | Some resolve =>
      settled (resolve (RenameSkeleton.model this) (RenameSkeleton.position this))
      = Resolved None
  end.

(** [typeof] *)
Definition typeof (v : JsValue) : string :=
  match v with
  | JsUndefined => "undefined"
  | JsNull => "object"
  | JsBoolean _ => "boolean"
  | JsNumber _ => "number"
  | JsString _ => "string"
  | JsObject => "object"
  end.

(** ** The session seen from outside *)

(** The world once the input widget has settled: the user's activity
    has reached the editor, the context key is up, the request is on
    record. *)
Definition afterInput (this : RenameController.t) (loc : RenameLocation) (w1 : World)
  : World :=
  let sel := RenameController.inputSelection loc (getSelection (editor w1)) in
  {| editor := meanwhile (RenameController.getInput this (range loc) (text loc)
                            (fst sel) (snd sel)) (editor w1);
     renameInputVisible := true;
     calls := calls w1;
     ui := ui w1 ++ [ContextKeySet true;
                     GetInput (range loc) (text loc) (fst sel) (snd sel)] |}.

(** The world in which the provider chain is started for a confirmed
    name. *)
Definition chainStart (w2 : World) : World :=
  {| editor := editor w2;
     renameInputVisible := false;
     calls := calls w2;
     ui := ui w2 ++ [ContextKeyReset; Focus; ShowWhile 250] |}.

(** The editor differs from the snapshot in at least one of the facets
    [EditorState] captures. *)
Definition changed (before now : Editor) : Prop :=
  getPosition before <> getPosition now
  \/ getVersionId before <> getVersionId now
  \/ getSelection before <> getSelection now
  \/ getScrollLeft before <> getScrollLeft now
  \/ getScrollTop before <> getScrollTop now.

(** Recognisers for counting events and invocations. *)
Definition isApply (e : UiEvent) : bool :=
  match e with Apply _ => true | _ => false end.

Definition isGetInput (e : UiEvent) : bool :=
  match e with GetInput _ _ _ _ => true | _ => false end.

Definition isResolveLocation (c : ProviderCall) : bool :=
  match c with ResolveLocationCall _ _ _ => true | _ => false end.

(** ** Sample documents, providers and sessions *)

Module Sample.
(** A promise that settles while the user leaves the editor alone. *)
Definition idle {A} (s : Settled A) : Async A :=
  {| settled := s; meanwhile := fun e => e |}.

(** A promise that settles after the user typed: the content version
    has moved on. *)
Definition typing {A} (s : Settled A) : Async A :=
  {| settled := s;
     meanwhile := fun e =>
       {| getPosition := getPosition e; getVersionId := (getVersionId e + 1)%Z;
          getSelection := getSelection e; getScrollLeft := getScrollLeft e;
          getScrollTop := getScrollTop e |} |}.

Definition answering (a : Async (option WorkspaceEdit)) : RenameProvider.t :=
  {| RenameProvider.resolveRenameLocation := None;
     RenameProvider.provideRenameEdits := fun _ _ _ => a |}.

Definition rejection (reason : string) : WorkspaceEdit :=
  {| edits := None; rejectReason := Some reason |}.

(** "let foo = 1;" renamed to "let bar = 1;" *)
Definition fooToBar : WorkspaceEdit :=
  {| edits := Some [ {| resource := "file:///a.ts";
                        editRange := Range.make 1 5 1 8;
                        newText := "bar" |} ];
     rejectReason := None |}.

Definition rejecting (reason : string) : RenameProvider.t :=
  answering (idle (Resolved (Some (rejection reason)))).
Definition silent : RenameProvider.t := answering (idle (Resolved None)).
Definition throwing (e : string) : RenameProvider.t := answering (idle (Rejected e)).
Definition succeeding : RenameProvider.t := answering (idle (Resolved (Some fooToBar))).
(** Rejects, and meanwhile the user types. *)
Definition slowlyRejecting (reason : string) : RenameProvider.t :=
  answering (typing (Resolved (Some (rejection reason)))).
(** Offers a rename location of its own. *)
Definition locating (loc : option RenameLocation) : RenameProvider.t :=
  {| RenameProvider.resolveRenameLocation := Some (fun _ _ => idle (Resolved loc));
     RenameProvider.provideRenameEdits := fun _ _ _ => idle (Resolved (Some fooToBar)) |}.

(** A document whose first line holds the word "fooBarX" in columns
    5 to 12. *)
Definition doc : ITextModel :=
  {| uri := "file:///a.ts";
     getWordAtPosition := fun p =>
       if ((Position.lineNumber p =? 1) && (5 <=? Position.column p)
           && (Position.column p <=? 12))%Z
       then Some (Word.make "fooBarX" 5 12) else None |}.

(** Cursor inside the word, columns 7 to 9 selected. *)
Definition ed0 : Editor :=
  {| getPosition := Position.make 1 6; getVersionId := 1;
     getSelection := Range.make 1 7 1 9; getScrollLeft := 0; getScrollTop := 0 |}.

Definition w0 : World :=
  {| editor := ed0; renameInputVisible := false; calls := []; ui := [] |}.

Definition skeleton (ps : list RenameProvider.t) : RenameSkeleton.t :=
  RenameSkeleton.new (fun _ => ps) doc (Position.make 1 6).

Definition controller (ps : list RenameProvider.t)
    (input : Settled NewNameOrFocusFlag) : RenameController.t :=
  {| RenameController.getModel := doc;
     RenameController.ordered := fun _ => ps;
     RenameController.getInput := fun _ _ _ _ => idle input;
     RenameController.apply := fun _ => idle (Resolved {| ariaSummary := "1 edit" |}) |}.
End Sample.

(** * Properties *)

Lemma Position_equals_spec a b : Position.equals a b = true <-> a = b.
Proof.
  destruct a as [l c], b as [l' c']; unfold Position.equals; cbn.
  rewrite andb_true_iff, !Z.eqb_eq. split.
  - intros [-> ->]; reflexivity.
  - intros H; injection H; auto.
Qed.

Lemma Range_equalsRange_spec a b : Range.equalsRange a b = true <-> a = b.
Proof.
  destruct a as [a1 a2 a3 a4], b as [b1 b2 b3 b4]; unfold Range.equalsRange; cbn.
  rewrite !andb_true_iff, !Z.eqb_eq. split.
  - intros [[[-> ->] ->] ->]; reflexivity.
  - intros H; injection H; auto.
Qed.

(** ** The provider chain *)

(** The body of [provideRenameEdits], one round. *)
Lemma provideRenameEdits_unfold this newName i rejects position w :
  RenameSkeleton.provideRenameEdits this newName i rejects position w =
  match nth_error (RenameSkeleton._provider this) i with
  | None => (w, Ok {| edits := None; rejectReason := Some (join rejects) |})
  | Some provider =>
      match awaitProvider (ProvideEditsCall i (RenameSkeleton.position this) newName)
              (RenameProvider.provideRenameEdits provider (RenameSkeleton.model this)
                 (RenameSkeleton.position this) newName) w with
      | (w', Rejected e) => (w', Fail (Thrown e))
      | (w', Resolved None) =>
          RenameSkeleton.provideRenameEdits this newName (S i) (rejects ++ [noResult])
            (RenameSkeleton.position this) w'
      | (w', Resolved (Some result)) =>
          match rejectReason result with
          | Some (String c s) =>
              RenameSkeleton.provideRenameEdits this newName (S i)
                (rejects ++ [String c s]) (RenameSkeleton.position this) w'
          | _ => (w', Ok result)
          end
      end
  end.
Proof.
  rewrite RenameSkeleton.provideRenameEdits_equation_1.
  assert (clause : forall o (e : nth_error (RenameSkeleton._provider this) i = o),
    RenameSkeleton.provideRenameEdits_unfold_clause_1 this newName i
      (exist _ o e) rejects position w =
    match o with
    | None => (w, Ok {| edits := None; rejectReason := Some (join rejects) |})
    | Some provider =>
      match awaitProvider (ProvideEditsCall i (RenameSkeleton.position this) newName)
              (RenameProvider.provideRenameEdits provider (RenameSkeleton.model this)
                 (RenameSkeleton.position this) newName) w with
      | (w', Rejected e) => (w', Fail (Thrown e))
      | (w', Resolved None) =>
          RenameSkeleton.provideRenameEdits this newName (S i) (rejects ++ [noResult])
            (RenameSkeleton.position this) w'
      | (w', Resolved (Some result)) =>
          match rejectReason result with
          | Some (String c s) =>
              RenameSkeleton.provideRenameEdits this newName (S i)
                (rejects ++ [String c s]) (RenameSkeleton.position this) w'
          | _ => (w', Ok result)
          end
      end
    end).
  { intros [provider|] e; cbn; [|reflexivity].
    unfold awaitProvider.
    destruct (settled _) as [[result|]|err]; cbn; try reflexivity.
    all: destruct (rejectReason result) as [[|c s]|]; reflexivity. }
  apply clause.
Qed.

(** Induction from the end of the chain towards its head, the way the
    recursion of [provideRenameEdits] unwinds. *)
Lemma chain_ind (ps : list RenameProvider.t) (P : nat -> Prop) :
  (forall i, nth_error ps i = None -> P i) ->
  (forall i p, nth_error ps i = Some p -> P (S i) -> P i) ->
  forall i, P i.
Proof.
  intros Hout Hon i.
  remember (List.length ps - i)%nat as n eqn:Hn.
  revert i Hn; induction n as [|n IH]; intros i Hn.
  - apply Hout, nth_error_None; lia.
  - destruct (nth_error ps i) as [p|] eqn:E; [|auto].
    apply (Hon i p E), IH.
    assert (i < List.length ps)%nat by (apply nth_error_Some; congruence).
    lia.
Qed.

Lemma skipn_out {A} (l : list A) i : nth_error l i = None -> skipn i l = [].
Proof.
  revert i; induction l as [|a l IH]; intros [|i]; cbn; auto; discriminate.
Qed.

Lemma skipn_on {A} (l : list A) i a :
  nth_error l i = Some a -> skipn i l = a :: skipn (S i) l.
Proof.
  revert i; induction l as [|b l IH]; intros [|i]; cbn; try discriminate.
  - intros [= ->]; reflexivity.
  - intros H; rewrite (IH _ H); reflexivity.
Qed.

(** The function computes a walk of the chain: it always returns, it
    only appends to the record of invocations, and it leaves the user
    interface and the context key alone. *)
Lemma provideRenameEdits_walked this newName i :
  forall rejects position w,
  let out := RenameSkeleton.provideRenameEdits this newName i rejects position w in
  exists cs,
    Walked this newName i (skipn i (RenameSkeleton._provider this)) rejects cs (snd out)
    /\ calls (fst out) = calls w ++ cs
    /\ ui (fst out) = ui w
    /\ renameInputVisible (fst out) = renameInputVisible w.
Proof.
  pattern i; apply (chain_ind (RenameSkeleton._provider this)); clear i.
  - intros i E rejects position w; cbn zeta.
    rewrite provideRenameEdits_unfold, E, (skipn_out _ _ E); cbn.
    exists []; rewrite app_nil_r; repeat split; constructor.
  - intros i p E IH rejects position w; cbn zeta.
    rewrite provideRenameEdits_unfold, E, (skipn_on _ _ E).
    unfold awaitProvider.
    destruct (settled _) as [[result|]|err] eqn:A; cbn.
    + destruct (rejectReason result) as [[|c s]|] eqn:R.
      1,3: exists [callOf this newName i p]; cbn;
           (split; [apply WalkedWin; [exact A | rewrite R; reflexivity]|]);
           (split; [unfold callOf, answerOf; rewrite A; reflexivity|]);
           split; reflexivity.
      match goal with
      | |- context [RenameSkeleton.provideRenameEdits _ _ _ ?rj ?ps ?w'] =>
          destruct (IH rj ps w') as (cs & Hw & Hc & Hu & Hv)
      end.
      exists (callOf this newName i p :: cs); cbn in *.
      split; [|split; [|split; assumption]].
      * eapply WalkedOn; [|exact Hw]. unfold reasonOf, answerOf. rewrite A, R.
        reflexivity.
      * rewrite Hc, <- app_assoc; unfold callOf, answerOf; rewrite A; reflexivity.
    + match goal with
      | |- context [RenameSkeleton.provideRenameEdits _ _ _ ?rj ?ps ?w'] =>
          destruct (IH rj ps w') as (cs & Hw & Hc & Hu & Hv)
      end.
      exists (callOf this newName i p :: cs); cbn in *.
      split; [|split; [|split; assumption]].
      * eapply WalkedOn; [|exact Hw]. unfold reasonOf, answerOf. rewrite A.
        reflexivity.
      * rewrite Hc, <- app_assoc; unfold callOf, answerOf; rewrite A; reflexivity.
    + exists [callOf this newName i p]; cbn.
      split; [apply WalkedThrow; exact A|].
      split; [unfold callOf, answerOf; rewrite A; reflexivity|].
      split; reflexivity.
Qed.

(** The [position] argument plays no part: every provider is handed
    [this.position]. *)
Lemma provideRenameEdits_position_ignored this newName i rejects position position' w :
  RenameSkeleton.provideRenameEdits this newName i rejects position w =
  RenameSkeleton.provideRenameEdits this newName i rejects position' w.
Proof.
  rewrite (provideRenameEdits_unfold this newName i rejects position).
  rewrite (provideRenameEdits_unfold this newName i rejects position').
  reflexivity.
Qed.

Section Walks.
Variable this : RenameSkeleton.t.
Variable newName : string.

Lemma walked_all_fail i rest rejects cs r :
  Walked this newName i rest rejects cs r ->
  forall reasons, Forall2 (failsWith this newName) rest reasons ->
  r = Ok {| edits := None; rejectReason := Some (join (rejects ++ reasons)) |}
  /\ cs = callsOn this newName i rest.
Proof.
  induction 1 as [i rejects|i p rest rejects reason cs r Hp Hw IH
                 |i p rest rejects result Ha Ht|i p rest rejects e Ha];
    intros reasons HF; inversion HF; subst; unfold failsWith in *.
  - rewrite app_nil_r; auto.
  - match goal with
    | H : reasonOf (answerOf _ _ p) = Some ?y, T : Forall2 _ rest ?l |- _ =>
        assert (y = reason) by congruence; subst y;
        destruct (IH _ T) as [-> ->]
    end.
    rewrite <- app_assoc; auto.
  - rewrite Ha in *; cbn in *.
    destruct (rejectReason result) as [[|c s]|]; discriminate.
  - rewrite Ha in *; discriminate.
Qed.

Lemma walked_stops i rest rejects cs r :
  Walked this newName i rest rejects cs r ->
  forall k reasons p,
  Forall2 (failsWith this newName) (firstn k rest) reasons ->
  nth_error rest k = Some p ->
  reasonOf (answerOf this newName p) = None ->
  cs = callsOn this newName i (firstn (S k) rest)
  /\ (forall result, answerOf this newName p = Resolved (Some result) -> r = Ok result)
  /\ (forall e, answerOf this newName p = Rejected e -> r = Fail (Thrown e)).
Proof.
  induction 1 as [i rejects|i p rest rejects reason cs r Hp Hw IH
                 |i p rest rejects result Ha Ht|i p rest rejects e Ha];
    intros k reasons q HF Hn Hq.
  - destruct k; discriminate.
  - destruct k as [|k]; cbn [firstn nth_error] in *.
    + injection Hn as <-. congruence.
    + inversion HF as [|? ? ? reasons' _ HF']; subst.
      destruct (IH k reasons' q HF' Hn Hq) as (-> & Hok & Hth).
      split; [reflexivity|]. split; assumption.
  - destruct k as [|k]; cbn [firstn nth_error] in *.
    + injection Hn as <-. split; [reflexivity|]. split; intros x Hx; congruence.
    + inversion HF as [|? ? ? ? Hp]; subst. unfold failsWith in Hp.
      rewrite Ha in Hp; cbn in Hp. unfold truthy in Ht.
      destruct (rejectReason result) as [[|c s]|]; discriminate.
  - destruct k as [|k]; cbn [firstn nth_error] in *.
    + injection Hn as <-. split; [reflexivity|]. split; intros x Hx; congruence.
    + inversion HF as [|? ? ? ? Hp]; subst. unfold failsWith in Hp.
      rewrite Ha in Hp; discriminate.
Qed.

Lemma walked_throw i rest rejects cs r :
  Walked this newName i rest rejects cs r ->
  forall k p e reasons,
  Forall2 (failsWith this newName) (firstn k rest) reasons ->
  nth_error rest k = Some p ->
  answerOf this newName p = Rejected e ->
  r = Fail (Thrown e).
Proof.
  induction 1 as [i rejects|i p rest rejects reason cs r Hp Hw IH
                 |i p rest rejects result Ha Ht|i p rest rejects e Ha];
    intros k q e' reasons HF Hn Hq.
  - destruct k; discriminate.
  - destruct k as [|k]; cbn in *.
    + injection Hn as <-. rewrite Hq in Hp. discriminate.
    + inversion HF; subst. eapply IH; eassumption.
  - destruct k as [|k]; cbn in *.
    + injection Hn as <-. congruence.
    + inversion HF as [|? ? ? ? Hp]; subst. unfold failsWith in Hp.
      rewrite Ha in Hp; cbn in Hp.
      destruct (rejectReason result) as [[|c s]|]; discriminate.
  - destruct k as [|k]; cbn in *.
    + injection Hn as <-. congruence.
    + inversion HF as [|? ? ? ? Hp]; subst. unfold failsWith in Hp.
      rewrite Ha in Hp; discriminate.
Qed.
End Walks.

(** C1, as stated, fails on a chain whose first provider throws and
    whose second provider would return a result with no reject reason:
    the second is the first to return such a result, yet the chain ends
    with the error of the first and the second is never invoked. *)
Lemma C1_throwing_predecessor_counterexample :
  let this := Sample.skeleton [Sample.throwing "boom"; Sample.succeeding] in
  let out := RenameSkeleton.provideRenameEdits this "bar" 0 [] (Position.make 1 6) Sample.w0 in
  nth_error (RenameSkeleton._provider this) 1 = Some Sample.succeeding
  /\ answerOf this "bar" Sample.succeeding = Resolved (Some Sample.fooToBar)
  /\ truthy (rejectReason Sample.fooToBar) = false
  /\ (forall result,
        answerOf this "bar" (Sample.throwing "boom") <> Resolved (Some result))
  /\ snd out = Fail (Thrown "boom")
  /\ snd out <> Ok Sample.fooToBar
  /\ calls (fst out)
     = [ProvideEditsCall 0 (Position.make 1 6) "bar" (Rejected "boom")].
Proof.
  cbn zeta.
  split; [reflexivity|]. split; [reflexivity|]. split; [reflexivity|].
  split; [intros result H; vm_compute in H; discriminate|].
  split; [vm_compute; reflexivity|].
  split; [intros H; vm_compute in H; discriminate|].
  vm_compute; reflexivity.
Qed.

(** C1, amended.  The chain is walked in order from index 0, one
    provider after the other: when each provider before [i] fails by
    returning (no result, or a result with a non-empty reject reason)
    and provider [i] returns a result with no reject reason (none, or
    an empty one: the test is on truthiness), the chain returns that
    very result, and the providers invoked are exactly those from 0 to
    [i], each once and in order: every provider before [i] was invoked,
    none after [i] is.  When provider [i] throws instead, the walk ends
    there too, with its error. *)
Theorem C1_first_success_after_failures this newName position w i p reasons :
  let out := RenameSkeleton.provideRenameEdits this newName 0 [] position w in
  Forall2 (failsWith this newName)
    (firstn i (RenameSkeleton._provider this)) reasons ->
  nth_error (RenameSkeleton._provider this) i = Some p ->
  (forall result,
     answerOf this newName p = Resolved (Some result) ->
     truthy (rejectReason result) = false ->
     snd out = Ok result
     /\ calls (fst out)
        = calls w ++ callsOn this newName 0
                       (firstn (S i) (RenameSkeleton._provider this)))
  /\ (forall e,
        answerOf this newName p = Rejected e ->
        snd out = Fail (Thrown e)
        /\ calls (fst out)
           = calls w ++ callsOn this newName 0
                          (firstn (S i) (RenameSkeleton._provider this))).
Proof.
  cbn zeta. intros HF Hn.
  destruct (provideRenameEdits_walked this newName 0 [] position w)
    as (cs & Hw & Hc & _).
  cbn [skipn] in Hw. split.
  - intros result Ha Ht.
    assert (Hq : reasonOf (answerOf this newName p) = None).
    { rewrite Ha; cbn. unfold truthy in Ht.
      destruct (rejectReason result) as [[|c s]|]; [reflexivity|discriminate|reflexivity]. }
    destruct (walked_stops Hw i HF Hn Hq) as (E & Hok & _).
    split; [exact (Hok result Ha) | rewrite Hc, E; reflexivity].
  - intros e Ha.
    assert (Hq : reasonOf (answerOf this newName p) = None)
      by (rewrite Ha; reflexivity).
    destruct (walked_stops Hw i HF Hn Hq) as (E & _ & Hth).
    split; [exact (Hth e Ha) | rewrite Hc, E; reflexivity].
Qed.

Lemma C1_first_success_after_failures_witness :
  let this := Sample.skeleton [Sample.rejecting "a"; Sample.succeeding; Sample.throwing "P3"] in
  let out := RenameSkeleton.provideRenameEdits this "bar" 0 [] (Position.make 1 5) Sample.w0 in
  snd out = Ok Sample.fooToBar
  /\ calls (fst out)
     = [ProvideEditsCall 0 (Position.make 1 6) "bar" (Resolved (Some (Sample.rejection "a")));
        ProvideEditsCall 1 (Position.make 1 6) "bar" (Resolved (Some Sample.fooToBar))].
Proof.
  cbn zeta.
  refine (proj1 (@C1_first_success_after_failures
                   (Sample.skeleton
                      [Sample.rejecting "a"; Sample.succeeding; Sample.throwing "P3"])
                   "bar" (Position.make 1 5) Sample.w0 1 Sample.succeeding ["a"]
                   _ eq_refl)
            Sample.fooToBar _ _).
  - repeat constructor.
  - reflexivity.
  - reflexivity.
Defined.

(** C2, as stated, fails on a provider that throws: the chain does not
    record a reason and move on, it ends with the error, and no
    [WorkspaceEdit] comes back. *)
Lemma C2_throwing_provider_counterexample :
  let this := Sample.skeleton [Sample.throwing "boom"] in
  let out := RenameSkeleton.provideRenameEdits this "bar" 0 [] (Position.make 1 6) Sample.w0 in
  Forall (fun p => exists e, answerOf this "bar" p = Rejected e)
    (RenameSkeleton._provider this)
  /\ snd out = Fail (Thrown "boom")
  /\ forall reasons,
       snd out <> Ok {| edits := None; rejectReason := Some (join reasons) |}.
Proof.
  cbn zeta. split; [|split].
  - repeat constructor. exists "boom". reflexivity.
  - vm_compute; reflexivity.
  - intros reasons H. vm_compute in H. discriminate.
Qed.

(** C2, amended.  When each of the N providers of the chain returns no
    result or a result with a non-empty reject reason, the chain returns
    a [WorkspaceEdit] with [edits] undefined and the N reasons joined by
    newlines in chain order, "No result." standing for a missing result;
    for the empty chain the joined reason is the empty string.  A
    provider that throws is not passed over: once the providers before
    it have failed, the chain fails with its error. *)
Theorem C2_all_fail_joined_reasons this newName position w reasons :
  let out := RenameSkeleton.provideRenameEdits this newName 0 [] position w in
  (Forall2 (failsWith this newName) (RenameSkeleton._provider this) reasons ->
     snd out = Ok {| edits := None; rejectReason := Some (join reasons) |}
     /\ List.length reasons = List.length (RenameSkeleton._provider this)
     /\ (forall k p, nth_error (RenameSkeleton._provider this) k = Some p ->
           answerOf this newName p = Resolved None ->
           nth_error reasons k = Some "No result.")
     /\ (RenameSkeleton._provider this = [] -> join reasons = ""))
  /\ (forall k p e,
        Forall2 (failsWith this newName)
          (firstn k (RenameSkeleton._provider this)) reasons ->
        nth_error (RenameSkeleton._provider this) k = Some p ->
        answerOf this newName p = Rejected e ->
        snd out = Fail (Thrown e)).
Proof.
  cbn zeta.
  destruct (provideRenameEdits_walked this newName 0 [] position w)
    as (cs & Hw & _).
  cbn [skipn] in Hw. split.
  - intros HF.
    destruct (walked_all_fail Hw HF) as [Hr _].
    split; [exact Hr|]. split; [symmetry; exact (Forall2_length HF)|]. split.
    + clear Hw Hr. induction HF as [|p reason ps rs Hp HF IH]; intros [|k] q; cbn;
        try discriminate.
      * intros [= ->] Hq. unfold failsWith in Hp. rewrite Hq in Hp. cbn in Hp.
        injection Hp as <-. reflexivity.
      * apply IH.
    + intros E. rewrite E in HF. inversion HF. reflexivity.
  - intros k p e HF Hn Hp. exact (walked_throw Hw k HF Hn Hp).
Qed.

Lemma C2_all_fail_joined_reasons_witness :
  snd (RenameSkeleton.provideRenameEdits
         (Sample.skeleton [Sample.rejecting "a"; Sample.silent; Sample.rejecting "b"])
         "bar" 0 [] (Position.make 1 5) Sample.w0)
    = Ok {| edits := None; rejectReason := Some (join ["a"; "No result."; "b"]) |}
  /\ snd (RenameSkeleton.provideRenameEdits
            (Sample.skeleton [Sample.rejecting "a"; Sample.throwing "boom"; Sample.succeeding])
            "bar" 0 [] (Position.make 1 5) Sample.w0)
     = Fail (Thrown "boom").
Proof.
  split.
  - apply (proj1 (@C2_all_fail_joined_reasons
                    (Sample.skeleton [Sample.rejecting "a"; Sample.silent; Sample.rejecting "b"])
                    "bar" (Position.make 1 5) Sample.w0 ["a"; "No result."; "b"])).
    repeat constructor.
  - apply (proj2 (@C2_all_fail_joined_reasons
                    (Sample.skeleton [Sample.rejecting "a"; Sample.throwing "boom";
                                      Sample.succeeding])
                    "bar" (Position.make 1 5) Sample.w0 ["a"])
             1%nat (Sample.throwing "boom") "boom").
    + repeat constructor.
    + reflexivity.
    + reflexivity.
Defined.

(** C3.  A session whose cursor stands at column 6 of a word that starts
    at column 5: [run] resolves the range (1,5)-(1,12) and passes its
    start, (1,5), to [provideRenameEdits], yet the provider is invoked
    with the cursor position (1,6). *)
Theorem C3_provider_invoked_with_cursor_position :
  let this := Sample.controller [Sample.succeeding] (Resolved (NewName "bar")) in
  let out := RenameController.run this Sample.w0 in
  In (GetInput (Range.make 1 5 1 12) "fooBarX" 2 4) (ui (fst out))
  /\ Range.getStartPosition (Range.make 1 5 1 12) = Position.make 1 5
  /\ calls (fst out)
     = [ProvideEditsCall 0 (Position.make 1 6) "bar" (Resolved (Some Sample.fooToBar))]
  /\ calls (fst (RenameSkeleton.provideRenameEdits (Sample.skeleton [Sample.succeeding])
                   "bar" 0 [] (Position.make 1 5) Sample.w0))
     = [ProvideEditsCall 0 (Position.make 1 6) "bar" (Resolved (Some Sample.fooToBar))].
Proof.
  cbn zeta. split; [|split; [|split]].
  - vm_compute. right; left; reflexivity.
  - reflexivity.
  - vm_compute; reflexivity.
  - vm_compute; reflexivity.
Qed.

(** ** Locating the symbol *)

(** [resolveRenameLocation] asks at most the first provider, and leaves
    the user interface and the context key alone. *)
Lemma resolveRenameLocation_frame this w :
  let out := RenameSkeleton.resolveRenameLocation this w in
  ui (fst out) = ui w
  /\ renameInputVisible (fst out) = renameInputVisible w
  /\ exists cs, calls (fst out) = calls w ++ cs
       /\ (List.length cs <= 1)%nat
       /\ Forall (fun c => exists at_ answer, c = ResolveLocationCall 0 at_ answer) cs.
Proof.
  unfold RenameSkeleton.resolveRenameLocation.
  destruct (RenameSkeleton._provider this) as [|provider rest]; cbn.
  { split; [reflexivity|]. split; [reflexivity|].
    exists []; rewrite app_nil_r; auto. }
  destruct (RenameProvider.resolveRenameLocation provider) as [resolve|].
  - unfold awaitProvider.
    assert (tail : forall a : Settled (option RenameLocation),
      exists cs, calls w ++ [ResolveLocationCall 0 (RenameSkeleton.position this) a]
                 = calls w ++ cs
        /\ (List.length cs <= 1)%nat
        /\ Forall (fun c => exists at_ answer, c = ResolveLocationCall 0 at_ answer) cs).
    { intros a. eexists; split; [reflexivity|]. split; [cbn; lia|].
      repeat constructor. eauto. }
    destruct (settled _) as [[res|]|e]; cbn;
      try destruct (getWordAtPosition _ _); cbn; auto.
  - destruct (getWordAtPosition _ _); cbn;
      (split; [reflexivity|]); (split; [reflexivity|]);
      exists []; rewrite app_nil_r; auto.
Qed.

(** C7.  With a first provider that supplies no rename location, a
    position inside a word is located at exactly that word: its span on
    the position's line, from the word's start column to its end column,
    and the word's text.  Nothing is located only when the first
    provider supplies no location and there is no word at the
    position. *)
Theorem C7_locate_returns_word_span this provider rest w :
  RenameSkeleton._provider this = provider :: rest ->
  let line := Position.lineNumber (RenameSkeleton.position this) in
  let lookup := getWordAtPosition (RenameSkeleton.model this) (RenameSkeleton.position this) in
  let located := snd (RenameSkeleton.resolveRenameLocation this w) in
  (forall word, noOverride this provider -> lookup = Some word ->
     located = Ok (Some {| range := Range.make line (Word.startColumn word)
                                      line (Word.endColumn word);
                           text := Word.word word |}))
  /\ (located = Ok None -> noOverride this provider /\ lookup = None).
Proof.
  intros E line lookup located; subst line lookup located.
  unfold RenameSkeleton.resolveRenameLocation, noOverride; rewrite E.
  destruct (RenameProvider.resolveRenameLocation provider) as [resolve|].
  - unfold awaitProvider.
    destruct (settled _) as [[res|]|e]; cbn; (split; [intros word H; try discriminate|]).
    + discriminate.
    + intros ->; reflexivity.
    + destruct (getWordAtPosition _ _); cbn; [discriminate|auto].
    + discriminate.
  - split.
    + intros word _ ->; reflexivity.
    + destruct (getWordAtPosition _ _); cbn; [discriminate|auto].
Qed.

Lemma C7_locate_returns_word_span_witness :
  noOverride (Sample.skeleton [Sample.succeeding]) Sample.succeeding
  /\ getWordAtPosition Sample.doc (Position.make 1 6) = Some (Word.make "fooBarX" 5 12)
  /\ snd (RenameSkeleton.resolveRenameLocation (Sample.skeleton [Sample.succeeding]) Sample.w0)
     = Ok (Some {| range := Range.make 1 5 1 12; text := "fooBarX" |}).
Proof.
  split; [exact I|]. split; [reflexivity|].
  apply (proj1 (@C7_locate_returns_word_span (Sample.skeleton [Sample.succeeding])
                  Sample.succeeding [] Sample.w0 eq_refl)
           (Word.make "fooBarX" 5 12)).
  - exact I.
  - reflexivity.
Defined.

(** C10.  [resolveRenameLocation] reads the first provider of the chain
    without looking at the chain's length: on an empty chain it throws
    a type error instead of returning nothing.  When [hasProvider]
    holds that error cannot occur, and the first provider is the only
    one consulted: the rest of the chain has no influence and gets no
    invocation. *)
Theorem C10_locate_needs_a_provider this w :
  let out := RenameSkeleton.resolveRenameLocation this w in
  (RenameSkeleton.hasProvider this = false ->
     exists msg, out = (w, Fail (TypeError msg)))
  /\ (RenameSkeleton.hasProvider this = true ->
        (forall msg, snd out <> Fail (TypeError msg))
        /\ (exists provider rest,
              RenameSkeleton._provider this = provider :: rest
              /\ out = RenameSkeleton.resolveRenameLocation
                         {| RenameSkeleton.model := RenameSkeleton.model this;
                            RenameSkeleton.position := RenameSkeleton.position this;
                            RenameSkeleton._provider := [provider] |} w)
        /\ (exists cs, calls (fst out) = calls w ++ cs
              /\ (List.length cs <= 1)%nat
              /\ Forall (fun c => exists at_ answer, c = ResolveLocationCall 0 at_ answer) cs)).
Proof.
  cbn zeta. split.
  - unfold RenameSkeleton.hasProvider, RenameSkeleton.resolveRenameLocation.
    destruct (RenameSkeleton._provider this); cbn; [eauto|discriminate].
  - intros H. split; [|split].
    + unfold RenameSkeleton.hasProvider, RenameSkeleton.resolveRenameLocation in *.
      destruct (RenameSkeleton._provider this) as [|provider rest]; [discriminate|].
      intros msg. destruct (RenameProvider.resolveRenameLocation provider) as [resolve|].
      * unfold awaitProvider.
        destruct (settled _) as [[res|]|e]; cbn; try discriminate.
        destruct (getWordAtPosition _ _); discriminate.
      * destruct (getWordAtPosition _ _); discriminate.
    + unfold RenameSkeleton.hasProvider, RenameSkeleton.resolveRenameLocation in *.
      destruct (RenameSkeleton._provider this) as [|provider rest]; [discriminate|].
      exists provider, rest. split; reflexivity.
    + apply resolveRenameLocation_frame.
Qed.

Lemma C10_locate_needs_a_provider_witness :
  (exists msg, RenameSkeleton.resolveRenameLocation (Sample.skeleton []) Sample.w0
               = (Sample.w0, Fail (TypeError msg)))
  /\ (forall msg,
        snd (RenameSkeleton.resolveRenameLocation
               (Sample.skeleton [Sample.locating None; Sample.throwing "unused"]) Sample.w0)
        <> Fail (TypeError msg)).
Proof.
  split.
  - apply (proj1 (C10_locate_needs_a_provider (Sample.skeleton []) Sample.w0)).
    reflexivity.
  - apply (proj2 (C10_locate_needs_a_provider
                    (Sample.skeleton [Sample.locating None; Sample.throwing "unused"])
                    Sample.w0)).
    reflexivity.
Defined.

(** ** The programmatic entry point *)

(** C6.  [_executeDocumentRenameProvider] fails at once with the
    illegal-argument error for [newName] when [newName] is not a string;
    given a string it returns what the provider chain returns, started
    at index 0 with no reasons, and it touches neither the user
    interface nor the context key. *)
Theorem C6_entry_point_checks_newName ordered model position args w :
  (typeof (getProperty args "newName") <> "string" ->
     _executeDocumentRenameProvider ordered model position args w
     = (w, Fail (IllegalArgument "newName")))
  /\ (forall newName, getProperty args "newName" = JsString newName ->
        let out := _executeDocumentRenameProvider ordered model position args w in
        out = rename ordered model position newName w
        /\ out = RenameSkeleton.provideRenameEdits
                   (RenameSkeleton.new ordered model position) newName 0 [] position w
        /\ ui (fst out) = ui w
        /\ renameInputVisible (fst out) = renameInputVisible w).
Proof.
  unfold _executeDocumentRenameProvider. split.
  - destruct (getProperty args "newName"); cbn; intros H;
      try reflexivity; congruence.
  - intros newName ->. cbn zeta. split; [reflexivity|]. split; [reflexivity|].
    unfold rename.
    destruct (provideRenameEdits_walked (RenameSkeleton.new ordered model position)
                newName 0 [] position w) as (cs & _ & _ & Hu & Hv).
    split; assumption.
Qed.

Lemma C6_entry_point_checks_newName_witness :
  _executeDocumentRenameProvider (fun _ => [Sample.succeeding]) Sample.doc
    (Position.make 1 6) [("newName", JsNumber 3)] Sample.w0
  = (Sample.w0, Fail (IllegalArgument "newName"))
  /\ snd (_executeDocumentRenameProvider (fun _ => [Sample.succeeding]) Sample.doc
            (Position.make 1 6) [("newName", JsString "bar")] Sample.w0)
     = Ok Sample.fooToBar.
Proof.
  split.
  - apply (proj1 (C6_entry_point_checks_newName (fun _ => [Sample.succeeding]) Sample.doc
                    (Position.make 1 6) [("newName", JsNumber 3)] Sample.w0)).
    vm_compute; discriminate.
  - rewrite (proj1 (proj2 (C6_entry_point_checks_newName (fun _ => [Sample.succeeding])
                             Sample.doc (Position.make 1 6)
                             [("newName", JsString "bar")] Sample.w0)
                      "bar" eq_refl)).
    reflexivity.
Defined.

(** ** The session *)

(** C9.  On a document without providers [run] returns at once and
    leaves the world as it found it: no provider invocation, no input
    widget, no context key change, no message or notification, the
    editor untouched. *)
Theorem C9_no_provider_no_effect this w :
  RenameController.ordered this (RenameController.getModel this) = [] ->
  RenameController.run this w = (w, Ok tt).
Proof.
  intros E. unfold RenameController.run, bind, getEditor, RenameSkeleton.hasProvider,
    RenameSkeleton.new; cbn.
  rewrite E; reflexivity.
Qed.

Lemma C9_no_provider_no_effect_witness :
  RenameController.run (Sample.controller [] (Resolved (NewName "bar"))) Sample.w0
  = (Sample.w0, Ok tt).
Proof.
  apply (@C9_no_provider_no_effect (Sample.controller [] (Resolved (NewName "bar")))
           Sample.w0).
  reflexivity.
Defined.

(** [run], from a located symbol to the settling of the input widget. *)
Lemma run_located this w w1 loc :
  let skeleton := RenameSkeleton.new (RenameController.ordered this)
                    (RenameController.getModel this) (getPosition (editor w)) in
  RenameSkeleton.hasProvider skeleton = true ->
  RenameSkeleton.resolveRenameLocation skeleton w = (w1, Ok (Some loc)) ->
  let sel := RenameController.inputSelection loc (getSelection (editor w1)) in
  RenameController.run this w =
  match settled (RenameController.getInput this (range loc) (text loc) (fst sel) (snd sel)) with
  | Resolved v => RenameController.onInputResolved this skeleton loc v (afterInput this loc w1)
  | Rejected e => RenameController.onInputRejected (Thrown e) (afterInput this loc w1)
  end.
Proof.
  intros skeleton HP HL sel.
  unfold RenameController.run, bind at 1, getEditor at 1.
  fold skeleton. rewrite HP. cbn [negb].
  unfold bind at 1, attempt at 1. rewrite HL.
  unfold bind at 1, getEditor at 1. fold sel.
  unfold afterInput. fold sel.
  destruct sel as [selectionStart selectionEnd]; cbn [fst snd].
  unfold bind at 1, setVisible at 1.
  unfold bind at 1, attempt at 1, awaitUi at 1. cbn.
  rewrite <- app_assoc. cbn.
  destruct (settled _); reflexivity.
Qed.

(** The fulfilment callback of the input widget, for a confirmed name. *)
Lemma onInputResolved_newName this skeleton loc newName w2 :
  RenameController.onInputResolved this skeleton loc (NewName newName) w2 =
  let chain := RenameSkeleton.provideRenameEdits skeleton newName 0 []
                 (Range.getStartPosition (range loc)) (chainStart w2) in
  match snd chain with
  | Ok result =>
      RenameController.onEditsResolved this loc newName (EditorState.new (editor w2))
        result (fst chain)
  | Fail err => RenameController.onEditsRejected err (fst chain)
  end.
Proof.
  unfold RenameController.onInputResolved, bind, resetVisible, emit, getEditor,
    attempt, chainStart; cbn.
  rewrite <- !app_assoc; cbn.
  destruct (RenameSkeleton.provideRenameEdits _ _ _ _ _ _) as [w3 [result|err]];
    reflexivity.
Qed.

Lemma validate_true before now :
  EditorState.validate (EditorState.new before) now = true <-> ~ changed before now.
Proof.
  unfold EditorState.validate, EditorState.equals, EditorState.new, changed; cbn.
  rewrite !andb_true_iff, !Z.eqb_eq, Position_equals_spec, Range_equalsRange_spec.
  split.
  - intros [[[Hv [Hl Ht]] Hp] Hs] [H|[H|[H|[H|H]]]]; auto.
  - intros H.
    destruct (Z.eq_dec (getVersionId before) (getVersionId now)) as [Hv|Hv];
      [|exfalso; apply H; auto].
    destruct (Z.eq_dec (getScrollLeft before) (getScrollLeft now)) as [Hl|Hl];
      [|exfalso; apply H; auto 6].
    destruct (Z.eq_dec (getScrollTop before) (getScrollTop now)) as [Ht|Ht];
      [|exfalso; apply H; auto 6].
    destruct (Position.equals (getPosition before) (getPosition now)) eqn:Hp.
    2:{ exfalso; apply H; left; intros Heq.
        apply Position_equals_spec in Heq; congruence. }
    destruct (Range.equalsRange (getSelection before) (getSelection now)) eqn:Hs.
    2:{ exfalso; apply H; right; right; left; intros Heq.
        apply Range_equalsRange_spec in Heq; congruence. }
    apply Position_equals_spec in Hp. apply Range_equalsRange_spec in Hs. auto.
Qed.

(** Both callbacks of the input widget start by resetting the context
    key; what follows never raises it again nor shows the widget. *)
Lemma onInputResolved_tail this skeleton loc v w2 :
  let out := RenameController.onInputResolved this skeleton loc v w2 in
  renameInputVisible (fst out) = false
  /\ exists tail, ui (fst out) = ui w2 ++ ContextKeyReset :: tail
       /\ Forall (fun e => quiet e = true) tail.
Proof.
  destruct v as [newName|b]; cbn zeta.
  - rewrite onInputResolved_newName; cbn zeta.
    destruct (provideRenameEdits_walked skeleton newName 0 []
                (Range.getStartPosition (range loc)) (chainStart w2))
      as (cs & _ & _ & Hu & Hv).
    destruct (RenameSkeleton.provideRenameEdits _ _ _ _ _ _) as [w3 [result|err]];
      cbn [fst snd] in *.
    + unfold RenameController.onEditsResolved.
      destruct (rejectReason result) as [[|c s]|].
      2:{ unfold bind, getEditor.
          destruct (EditorState.validate _ _); cbn; rewrite Hu, Hv; cbn;
            (split; [reflexivity|]); rewrite <- app_assoc; cbn;
            eexists; (split; [reflexivity|]); repeat constructor. }
      all: unfold bind, awaitUi; destruct (settled _) as [applied|e]; cbn;
        try destruct (nonEmpty _); cbn; rewrite Hu, Hv; cbn;
        (split; [reflexivity|]); rewrite <- ?app_assoc; cbn;
        eexists; (split; [reflexivity|]); repeat constructor.
    + cbn. rewrite Hu, Hv; cbn. split; [reflexivity|].
      rewrite <- app_assoc; cbn. eexists; split; [reflexivity|]. repeat constructor.
  - destruct b; cbn; (split; [reflexivity|]); rewrite <- ?app_assoc; cbn;
      eexists; (split; [reflexivity|]); repeat constructor.
Qed.

Lemma onInputRejected_tail err w2 :
  let out := RenameController.onInputRejected err w2 in
  renameInputVisible (fst out) = false /\ ui (fst out) = ui w2 ++ [ContextKeyReset].
Proof. cbn. split; reflexivity. Qed.

(** [run], on the paths that end before the input widget is shown. *)
Lemma run_no_provider this w :
  RenameSkeleton.hasProvider
    (RenameSkeleton.new (RenameController.ordered this)
       (RenameController.getModel this) (getPosition (editor w))) = false ->
  RenameController.run this w = (w, Ok tt).
Proof.
  intros HP. unfold RenameController.run, bind at 1, getEditor at 1.
  rewrite HP. reflexivity.
Qed.

Lemma run_not_located this w w1 :
  let skeleton := RenameSkeleton.new (RenameController.ordered this)
                    (RenameController.getModel this) (getPosition (editor w)) in
  RenameSkeleton.hasProvider skeleton = true ->
  RenameSkeleton.resolveRenameLocation skeleton w = (w1, Ok None) ->
  RenameController.run this w = (w1, Ok tt).
Proof.
  intros skeleton HP HL. unfold RenameController.run, bind at 1, getEditor at 1.
  fold skeleton. rewrite HP. cbn [negb].
  unfold bind at 1, attempt at 1. rewrite HL. reflexivity.
Qed.

Lemma run_location_failed this w w1 err :
  let skeleton := RenameSkeleton.new (RenameController.ordered this)
                    (RenameController.getModel this) (getPosition (editor w)) in
  RenameSkeleton.hasProvider skeleton = true ->
  RenameSkeleton.resolveRenameLocation skeleton w = (w1, Fail err) ->
  RenameController.run this w
  = emit (ShowMessage (message err) (getPosition (editor w))) w1.
Proof.
  intros skeleton HP HL. unfold RenameController.run, bind at 1, getEditor at 1.
  fold skeleton. rewrite HP. cbn [negb].
  unfold bind at 1, attempt at 1. rewrite HL. reflexivity.
Qed.

(** The three courses a session can take, as the user interface sees
    them: nothing at all; an inline message for a failed location; or
    the context key raised, the widget shown, the key reset, and then
    only events that leave key and widget alone. *)
Lemma run_shape this w :
  let out := RenameController.run this w in
  (ui (fst out) = ui w /\ renameInputVisible (fst out) = renameInputVisible w)
  \/ (exists msg at_, ui (fst out) = ui w ++ [ShowMessage msg at_]
        /\ renameInputVisible (fst out) = renameInputVisible w)
  \/ (exists r txt s e tail,
        ui (fst out) = ui w ++ ContextKeySet true :: GetInput r txt s e
                                 :: ContextKeyReset :: tail
        /\ Forall (fun e => quiet e = true) tail
        /\ renameInputVisible (fst out) = false).
Proof.
  cbn zeta.
  set (skeleton := RenameSkeleton.new (RenameController.ordered this)
                     (RenameController.getModel this) (getPosition (editor w))).
  destruct (RenameSkeleton.hasProvider skeleton) eqn:HP.
  2:{ left. rewrite (run_no_provider this w HP). auto. }
  destruct (resolveRenameLocation_frame skeleton w) as (Hu & Hv & _).
  destruct (RenameSkeleton.resolveRenameLocation skeleton w) as [w1 [[loc|]|err]] eqn:HL;
    cbn [fst] in Hu, Hv.
  - right; right.
    rewrite (run_located this w HP HL). fold skeleton.
    exists (range loc), (text loc).
    exists (fst (RenameController.inputSelection loc (getSelection (editor w1)))).
    exists (snd (RenameController.inputSelection loc (getSelection (editor w1)))).
    destruct (settled _) as [v|e].
    + destruct (onInputResolved_tail this skeleton loc v (afterInput this loc w1))
        as (Hf & tail & Ht & Hq).
      exists tail. rewrite Ht. cbn [afterInput ui]. rewrite Hu, <- app_assoc.
      auto.
    + exists []. cbn. rewrite Hu, <- app_assoc. auto.
  - left. rewrite (run_not_located this w HP HL). auto.
  - right; left. exists (message err), (getPosition (editor w)).
    rewrite (run_location_failed this w HP HL). cbn. rewrite Hu. auto.
Qed.

Lemma visibleAfter_quiet tail :
  Forall (fun e => quiet e = true) tail -> visibleAfter false tail = false.
Proof.
  unfold visibleAfter. induction 1 as [|e tail He _ IH]; cbn; [reflexivity|].
  destruct e; cbn in He; try discriminate; exact IH.
Qed.

(** C5.  The context key "rename input visible" is up only while the
    session awaits the input widget: it is set right before the widget
    is shown and reset as the first thing once the widget settles, be
    it by a confirmed name, a cancellation or an error; so a session
    begun with the key down ends with the key down, whatever its
    outcome. *)
Theorem C5_input_visible_only_while_awaiting this w :
  let out := RenameController.run this w in
  exists evs,
    ui (fst out) = ui w ++ evs
    /\ renameInputVisible (fst out) = visibleAfter (renameInputVisible w) evs
    /\ (renameInputVisible w = false -> renameInputVisible (fst out) = false)
    /\ (forall pre e post,
          evs = pre ++ e :: post -> visibleAfter false (pre ++ [e]) = true ->
          e = ContextKeySet true \/ exists r txt s1 s2, e = GetInput r txt s1 s2)
    /\ (forall pre r txt s1 s2 post,
          evs = pre ++ GetInput r txt s1 s2 :: post ->
          (exists pre', pre = pre' ++ [ContextKeySet true])
          /\ (exists post', post = ContextKeyReset :: post')).
Proof.
  cbn zeta.
  destruct (run_shape this w)
    as [[Hu Hv]|[(msg & at_ & Hu & Hv)|(r & txt & s & e & tail & Hu & Hq & Hv)]].
  - exists []. rewrite app_nil_r.
    split; [exact Hu|]. split; [exact Hv|]. split; [congruence|].
    split; intros; exfalso; eapply app_cons_not_nil; eassumption.
  - exists [ShowMessage msg at_].
    split; [exact Hu|]. split; [exact Hv|]. split; [congruence|]. split.
    + intros [|x [|y pre]] e post H; cbn in H; try discriminate.
      injection H as <- <-. cbn. discriminate.
    + intros [|x [|y pre]] r txt s1 s2 post H; cbn in H; discriminate.
  - exists (ContextKeySet true :: GetInput r txt s e :: ContextKeyReset :: tail).
    split; [exact Hu|]. split.
    { rewrite Hv. unfold visibleAfter; cbn [fold_left].
      symmetry; apply (visibleAfter_quiet Hq). }
    split; [intros _; exact Hv|]. split.
    + intros [|p0 [|p1 [|p2 pre]]] e0 post H; cbn in H.
      * injection H as <- _. auto.
      * injection H as _ <- _. right; eauto.
      * injection H as _ _ <- _. cbn. discriminate.
      * injection H as <- <- <- ->. intros V. exfalso.
        assert (Q : Forall (fun e => quiet e = true) (pre ++ [e0])).
        { apply Forall_app in Hq as [Q1 Q2]. apply Forall_app. split; [exact Q1|].
          constructor; [exact (Forall_inv Q2)|constructor]. }
        unfold visibleAfter in V; cbn [fold_left app] in V.
        pose proof (visibleAfter_quiet Q) as V'. unfold visibleAfter in V'.
        congruence.
    + intros [|p0 [|p1 [|p2 pre]]] r0 txt0 s1 s2 post H; cbn in H.
      * discriminate.
      * injection H as <- _ _ _ _ <-. split; [exists []; reflexivity|eauto].
      * discriminate.
      * injection H as _ _ _ ->. exfalso.
        apply Forall_app in Hq as [_ Q2]. apply Forall_inv in Q2. discriminate.
Qed.

Lemma C5_input_visible_only_while_awaiting_witness :
  renameInputVisible
    (fst (RenameController.run
            (Sample.controller [Sample.rejecting "no"] (Rejected "widget failed"))
            Sample.w0)) = false.
Proof.
  destruct (C5_input_visible_only_while_awaiting
              (Sample.controller [Sample.rejecting "no"] (Rejected "widget failed"))
              Sample.w0) as (evs & _ & _ & H & _).
  apply H. reflexivity.
Defined.

(** C8.  The input widget is given the editor's selection, translated
    to offsets into the symbol text, whenever that selection is
    non-empty, on one line and inside the resolved range: its start
    column less the range's start column, not below 0, and the smaller
    of the two end columns less the range's start column.  For the
    range of columns 5 to 12 holding "fooBarX" and the selection of
    columns 7 to 9 these are 2 and 4.  In every other case the whole
    symbol text, 0 to its length, is pre-selected. *)
Theorem C8_selection_prefill this w w1 loc :
  let skeleton := RenameSkeleton.new (RenameController.ordered this)
                    (RenameController.getModel this) (getPosition (editor w)) in
  let sel := getSelection (editor w1) in
  RenameSkeleton.hasProvider skeleton = true ->
  RenameSkeleton.resolveRenameLocation skeleton w = (w1, Ok (Some loc)) ->
  exists selectionStart selectionEnd tail,
    ui (fst (RenameController.run this w))
    = ui w ++ ContextKeySet true
           :: GetInput (range loc) (text loc) selectionStart selectionEnd :: tail
    /\ (Range.isEmpty sel = false -> Range.spansMultipleLines sel = false ->
        Range.containsRange (range loc) sel = true ->
        selectionStart = Z.max 0 (Range.startColumn sel - Range.startColumn (range loc))
        /\ selectionEnd = (Z.min (Range.endColumn (range loc)) (Range.endColumn sel)
                           - Range.startColumn (range loc))%Z)
    /\ (Range.isEmpty sel = true \/ Range.spansMultipleLines sel = true
        \/ Range.containsRange (range loc) sel = false ->
        selectionStart = 0%Z /\ selectionEnd = jsLength (text loc))
    /\ RenameController.inputSelection
         {| range := Range.make 1 5 1 12; text := "fooBarX" |} (Range.make 1 7 1 9)
       = (2%Z, 4%Z).
Proof.
  intros skeleton sel HP HL.
  destruct (resolveRenameLocation_frame skeleton w) as (Hu & _).
  rewrite HL in Hu; cbn [fst] in Hu.
  exists (fst (RenameController.inputSelection loc sel)).
  exists (snd (RenameController.inputSelection loc sel)).
  assert (T : exists tail,
    ui (fst (RenameController.run this w))
    = ui w ++ ContextKeySet true
           :: GetInput (range loc) (text loc)
                (fst (RenameController.inputSelection loc sel))
                (snd (RenameController.inputSelection loc sel)) :: tail).
  { rewrite (run_located this w HP HL). fold skeleton sel.
    destruct (settled _) as [v|e].
    - destruct (onInputResolved_tail this skeleton loc v (afterInput this loc w1))
        as (_ & tail & Ht & _).
      exists (ContextKeyReset :: tail). rewrite Ht. cbn [afterInput ui]. fold sel.
      rewrite Hu, <- app_assoc. reflexivity.
    - exists [ContextKeyReset]. cbn. fold sel. rewrite Hu, <- app_assoc. reflexivity. }
  destruct T as [tail T]. exists tail. split; [exact T|].
  unfold RenameController.inputSelection. split; [|split].
  - intros -> -> ->. cbn. auto.
  - intros [ -> | [ -> | -> ] ]; cbn; auto.
    + destruct (negb _); auto.
    + destruct (negb _ && negb _); auto.
  - reflexivity.
Qed.

Lemma C8_selection_prefill_witness :
  exists tail,
    ui (fst (RenameController.run
               (Sample.controller [Sample.succeeding] (Resolved (FocusFlag false)))
               Sample.w0))
    = ContextKeySet true :: GetInput (Range.make 1 5 1 12) "fooBarX" 2 4 :: tail.
Proof.
  destruct (@C8_selection_prefill
              (Sample.controller [Sample.succeeding] (Resolved (FocusFlag false)))
              Sample.w0 Sample.w0 {| range := Range.make 1 5 1 12; text := "fooBarX" |}
              eq_refl eq_refl)
    as (selectionStart & selectionEnd & tail & Hui & Hin & _).
  destruct (Hin eq_refl eq_refl eq_refl) as [-> ->].
  exists tail. exact Hui.
Defined.

(** C4.  When the provider chain comes back with a reject reason, the
    editor at that moment is compared with the editor as it was when the
    name was confirmed: if position, content version, selection or
    scroll differ, the reason goes out as an informational notification;
    if none differs, it is shown inline at the current cursor position.
    Either way the session ends there: the bulk edit service is not
    called and the editor is as the chain left it. *)
Theorem C4_staleness_routing this w w1 loc newName result reason :
  let skeleton := RenameSkeleton.new (RenameController.ordered this)
                    (RenameController.getModel this) (getPosition (editor w)) in
  let sel := RenameController.inputSelection loc (getSelection (editor w1)) in
  let confirmed := afterInput this loc w1 in
  let chain := RenameSkeleton.provideRenameEdits skeleton newName 0 []
                 (Range.getStartPosition (range loc)) (chainStart confirmed) in
  let out := RenameController.run this w in
  RenameSkeleton.hasProvider skeleton = true ->
  RenameSkeleton.resolveRenameLocation skeleton w = (w1, Ok (Some loc)) ->
  settled (RenameController.getInput this (range loc) (text loc) (fst sel) (snd sel))
    = Resolved (NewName newName) ->
  snd chain = Ok result ->
  rejectReason result = Some reason ->
  reason <> "" ->
  snd out = Ok tt
  /\ editor (fst out) = editor (fst chain)
  /\ calls (fst out) = calls (fst chain)
  /\ (changed (editor confirmed) (editor (fst chain)) ->
        ui (fst out) = ui (chainStart confirmed) ++ [NotifyInfo reason])
  /\ (~ changed (editor confirmed) (editor (fst chain)) ->
        ui (fst out) = ui (chainStart confirmed)
                         ++ [ShowMessage reason (getPosition (editor (fst chain)))])
  /\ (forall edit, In (Apply edit) (ui (fst out)) -> In (Apply edit) (ui w)).
Proof.
  intros skeleton sel confirmed chain out HP HL HI HC HR HN.
  destruct (resolveRenameLocation_frame skeleton w) as (Hu1 & _).
  rewrite HL in Hu1; cbn [fst] in Hu1.
  destruct (provideRenameEdits_walked skeleton newName 0 []
              (Range.getStartPosition (range loc)) (chainStart confirmed))
    as (cs & _ & _ & Hu & _).
  fold chain in Hu.
  assert (E : out =
    if EditorState.validate (EditorState.new (editor confirmed)) (editor (fst chain))
    then emit (ShowMessage reason (getPosition (editor (fst chain)))) (fst chain)
    else emit (NotifyInfo reason) (fst chain)).
  { unfold out. rewrite (run_located this w HP HL). fold skeleton sel. rewrite HI.
    rewrite onInputResolved_newName. cbn zeta. fold confirmed chain. rewrite HC.
    unfold RenameController.onEditsResolved. rewrite HR.
    destruct reason as [|c s]; [congruence|].
    unfold bind, getEditor. destruct (EditorState.validate _ _); reflexivity. }
  pose proof (validate_true (editor confirmed) (editor (fst chain))) as V.
  rewrite E.
  destruct (EditorState.validate _ _); cbn; rewrite Hu.
  - assert (NC : ~ changed (editor confirmed) (editor (fst chain))) by (apply V; auto).
    split; [reflexivity|]. split; [reflexivity|]. split; [reflexivity|].
    split; [intros; contradiction|]. split; [reflexivity|].
    intros edit HIn. cbn in HIn. rewrite Hu1, <- !app_assoc in HIn.
    apply in_app_or in HIn as [HIn|HIn]; [exact HIn|].
    cbn in HIn. repeat (destruct HIn as [HIn|HIn]; [discriminate|]). contradiction.
  - assert (C : ~ ~ changed (editor confirmed) (editor (fst chain))).
    { intros NC. apply V in NC. discriminate. }
    split; [reflexivity|]. split; [reflexivity|]. split; [reflexivity|].
    split; [reflexivity|]. split; [intros; contradiction|].
    intros edit HIn. cbn in HIn. rewrite Hu1, <- !app_assoc in HIn.
    apply in_app_or in HIn as [HIn|HIn]; [exact HIn|].
    cbn in HIn. repeat (destruct HIn as [HIn|HIn]; [discriminate|]). contradiction.
Qed.

Lemma C4_staleness_routing_witness :
  ui (fst (RenameController.run
             (Sample.controller [Sample.slowlyRejecting "no"] (Resolved (NewName "bar")))
             Sample.w0))
  = [ContextKeySet true; GetInput (Range.make 1 5 1 12) "fooBarX" 2 4;
     ContextKeyReset; Focus; ShowWhile 250; NotifyInfo "no"].
Proof.
  destruct (@C4_staleness_routing
              (Sample.controller [Sample.slowlyRejecting "no"] (Resolved (NewName "bar")))
              Sample.w0 Sample.w0 {| range := Range.make 1 5 1 12; text := "fooBarX" |}
              "bar" (Sample.rejection "no") "no"
              eq_refl eq_refl eq_refl eq_refl eq_refl
              (fun H : "no" = "" => eq_ind "no" (fun s => match s with
                                                           | EmptyString => False
                                                           | String _ _ => True
                                                           end) I "" H))
    as (_ & _ & _ & Hstale & _).
  rewrite Hstale; [reflexivity|].
  right; left. vm_compute. discriminate.
Defined.

(** * Further properties *)

(** ** The provider chain, from any index *)

Section MoreWalks.
Variable this : RenameSkeleton.t.
Variable newName : string.

Lemma walked_calls i rest rejects cs r :
  Walked this newName i rest rejects cs r ->
  exists k, (k <= List.length rest)%nat
    /\ cs = callsOn this newName i (firstn k rest).
Proof.
  induction 1 as [i rejects|i p rest rejects reason cs r Hp Hw IH
                 |i p rest rejects result Ha Ht|i p rest rejects e Ha].
  - exists 0%nat. split; [cbn; lia | reflexivity].
  - destruct IH as (k & Hk & ->). exists (S k). split; [cbn; lia | reflexivity].
  - exists 1%nat. split; [cbn; lia | reflexivity].
  - exists 1%nat. split; [cbn; lia | reflexivity].
Qed.

Lemma walked_fun i rest rejects cs r :
  Walked this newName i rest rejects cs r ->
  forall cs' r', Walked this newName i rest rejects cs' r' -> cs = cs' /\ r = r'.
Proof.
  induction 1 as [i rejects|i p rest rejects reason cs r Hp Hw IH
                 |i p rest rejects result Ha Ht|i p rest rejects e Ha];
    intros cs' r' H'; inversion H'; subst; auto;
    try (match goal with
         | H1 : answerOf _ _ ?p = _, H2 : reasonOf (answerOf _ _ ?p) = Some _ |- _ =>
             exfalso; rewrite H1 in H2; cbn in H2; unfold truthy in *;
             try discriminate;
             match type of H2 with
             | context [rejectReason ?x] =>
                 destruct (rejectReason x) as [[|? ?]|]; discriminate
             end
         end).
  - match goal with
    | H1 : reasonOf _ = Some ?a, H2 : reasonOf _ = Some ?b |- _ =>
        assert (a = b) by congruence; subst
    end.
    match goal with
    | T : Walked _ _ _ _ _ _ _ |- _ => destruct (IH _ _ T) as [-> ->]
    end. auto.
  - match goal with
    | H1 : answerOf _ _ ?p = Resolved (Some ?x),
      H2 : answerOf _ _ ?p = Resolved (Some ?y) |- _ =>
        assert (x = y) by congruence; subst
    end. auto.
  - congruence.
  - congruence.
  - match goal with
    | H1 : answerOf _ _ ?p = Rejected ?x, H2 : answerOf _ _ ?p = Rejected ?y |- _ =>
        assert (x = y) by congruence; subst
    end. auto.
Qed.

Lemma walked_resume i rest rejects cs r :
  Walked this newName i rest rejects cs r ->
  forall k reasons,
  Forall2 (failsWith this newName) (firstn k rest) reasons ->
  exists cs', Walked this newName (i + k) (skipn k rest) (rejects ++ reasons) cs' r
    /\ cs = callsOn this newName i (firstn k rest) ++ cs'.
Proof.
  induction 1 as [i rejects|i p rest rejects reason cs r Hp Hw IH
                 |i p rest rejects result Ha Ht|i p rest rejects e Ha];
    intros k reasons HF.
  - destruct k; cbn in *; inversion HF; subst; rewrite app_nil_r;
      exists []; split; constructor.
  - destruct k as [|k]; cbn in *.
    + inversion HF; subst. rewrite app_nil_r, Nat.add_0_r.
      eexists; split; [eapply WalkedOn; eassumption | reflexivity].
    + inversion HF as [|? reason' ? reasons' Hp' HF']; subst.
      unfold failsWith in Hp'.
      assert (reason' = reason) by congruence; subst reason'.
      destruct (IH _ _ HF') as (cs' & Hw' & ->).
      exists cs'. rewrite <- app_assoc in Hw'. cbn in Hw'.
      rewrite Nat.add_succ_r. split; [exact Hw' | reflexivity].
  - destruct k as [|k]; cbn in *.
    + inversion HF; subst. rewrite app_nil_r, Nat.add_0_r.
      eexists; split; [eapply WalkedWin; eassumption | reflexivity].
    + inversion HF as [|? ? ? ? Hp']; subst. unfold failsWith in Hp'.
      rewrite Ha in Hp'; cbn in Hp'. unfold truthy in Ht.
      destruct (rejectReason result) as [[|c s]|]; discriminate.
  - destruct k as [|k]; cbn in *.
    + inversion HF; subst. rewrite app_nil_r, Nat.add_0_r.
      eexists; split; [eapply WalkedThrow; eassumption | reflexivity].
    + inversion HF as [|? ? ? ? Hp']; subst. unfold failsWith in Hp'.
      rewrite Ha in Hp'; discriminate.
Qed.
End MoreWalks.

(** X1.  From whatever index the chain is entered, it invokes a stretch
    of consecutive providers starting there, each one once and in chain
    order, each with the skeleton's own position and the new name, and
    never more than the providers that are left; it leaves the user
    interface and the context key as they were. *)
Theorem chain_invokes_each_provider_once this newName i rejects position w :
  let out := RenameSkeleton.provideRenameEdits this newName i rejects position w in
  exists k,
    (k <= List.length (RenameSkeleton._provider this) - i)%nat
    /\ calls (fst out)
       = calls w ++ callsOn this newName i
                      (firstn k (skipn i (RenameSkeleton._provider this)))
    /\ ui (fst out) = ui w
    /\ renameInputVisible (fst out) = renameInputVisible w.
Proof.
  cbn zeta.
  destruct (provideRenameEdits_walked this newName i rejects position w)
    as (cs & Hw & Hc & Hu & Hv).
  destruct (walked_calls Hw) as (k & Hk & ->).
  exists k. rewrite length_skipn in Hk. auto.
Qed.

(** X2.  Entered at index [i] with reasons already collected, a chain
    whose remaining providers all fail by returning invokes every one of
    them and returns the collected reasons followed by theirs, joined by
    newlines; entered at or past the end it invokes nobody and returns
    the collected reasons alone. *)
Theorem chain_exhausted_keeps_collected_reasons this newName i rejects position w reasons :
  let out := RenameSkeleton.provideRenameEdits this newName i rejects position w in
  Forall2 (failsWith this newName) (skipn i (RenameSkeleton._provider this)) reasons ->
  snd out = Ok {| edits := None; rejectReason := Some (join (rejects ++ reasons)) |}
  /\ calls (fst out)
     = calls w ++ callsOn this newName i (skipn i (RenameSkeleton._provider this))
  /\ ((List.length (RenameSkeleton._provider this) <= i)%nat ->
      out = (w, Ok {| edits := None; rejectReason := Some (join rejects) |})).
Proof.
  cbn zeta. intros HF.
  destruct (provideRenameEdits_walked this newName i rejects position w)
    as (cs & Hw & Hc & _).
  destruct (walked_all_fail Hw HF) as [Hr ->].
  split; [exact Hr|]. split; [exact Hc|].
  intros Hi. rewrite provideRenameEdits_unfold.
  assert (E : nth_error (RenameSkeleton._provider this) i = None)
    by (apply nth_error_None; exact Hi).
  rewrite E. reflexivity.
Qed.

Lemma chain_exhausted_keeps_collected_reasons_witness :
  snd (RenameSkeleton.provideRenameEdits
         (Sample.skeleton [Sample.succeeding; Sample.silent; Sample.rejecting "b"])
         "bar" 1 ["earlier"] (Position.make 1 5) Sample.w0)
  = Ok {| edits := None;
          rejectReason := Some (join (["earlier"] ++ ["No result."; "b"])) |}.
Proof.
  apply (@chain_exhausted_keeps_collected_reasons
           (Sample.skeleton [Sample.succeeding; Sample.silent; Sample.rejecting "b"])
           "bar" 1 ["earlier"] (Position.make 1 5) Sample.w0 ["No result."; "b"]).
  repeat constructor.
Defined.

(** X3.  The chain composes with itself: when the first [k] providers
    fail by returning, the chain entered at index 0 with no reasons ends
    exactly as the chain entered at index [k] with their reasons, in
    whatever world and with whatever [position] argument either is
    run. *)
Theorem chain_resumes_after_failures this newName k reasons position position' w w' :
  Forall2 (failsWith this newName)
    (firstn k (RenameSkeleton._provider this)) reasons ->
  snd (RenameSkeleton.provideRenameEdits this newName 0 [] position w)
  = snd (RenameSkeleton.provideRenameEdits this newName k reasons position' w').
Proof.
  intros HF.
  destruct (provideRenameEdits_walked this newName 0 [] position w)
    as (cs & Hw & _).
  destruct (provideRenameEdits_walked this newName k reasons position' w')
    as (cs' & Hw' & _).
  cbn [skipn] in Hw.
  destruct (walked_resume Hw k HF) as (cs2 & Hw2 & _).
  cbn in Hw2.
  destruct (walked_fun Hw2 Hw') as [_ E]. exact E.
Qed.

Lemma chain_resumes_after_failures_witness :
  snd (RenameSkeleton.provideRenameEdits
         (Sample.skeleton [Sample.rejecting "a"; Sample.silent; Sample.succeeding])
         "bar" 0 [] (Position.make 1 5) Sample.w0)
  = snd (RenameSkeleton.provideRenameEdits
           (Sample.skeleton [Sample.rejecting "a"; Sample.silent; Sample.succeeding])
           "bar" 2 ["a"; "No result."] (Position.make 9 9) Sample.w0).
Proof.
  apply (@chain_resumes_after_failures
           (Sample.skeleton [Sample.rejecting "a"; Sample.silent; Sample.succeeding])
           "bar" 2 ["a"; "No result."] (Position.make 1 5) (Position.make 9 9)
           Sample.w0 Sample.w0).
  repeat constructor.
Defined.

(** ** Locating the symbol: what the first provider's answer decides *)

(** X4.  A first provider without the capability is not invoked at all;
    one with the capability is invoked once, at the skeleton's position.
    A location it supplies is returned as it is, whatever word lies at
    the position; an error it raises is passed on, and the word lookup
    is not tried in its place. *)
Theorem locate_first_provider_decides this provider rest w :
  let out := RenameSkeleton.resolveRenameLocation this w in
  RenameSkeleton._provider this = provider :: rest ->
  (RenameProvider.resolveRenameLocation provider = None -> fst out = w)
  /\ (forall resolve,
        RenameProvider.resolveRenameLocation provider = Some resolve ->
        let answer := resolve (RenameSkeleton.model this) (RenameSkeleton.position this) in
        editor (fst out) = meanwhile answer (editor w)
        /\ calls (fst out)
           = calls w ++ [ResolveLocationCall 0 (RenameSkeleton.position this)
                           (settled answer)]
        /\ (forall loc, settled answer = Resolved (Some loc) -> snd out = Ok (Some loc))
        /\ (forall e, settled answer = Rejected e -> snd out = Fail (Thrown e))).
Proof.
  cbn zeta. intros E. unfold RenameSkeleton.resolveRenameLocation. rewrite E.
  split.
  - intros ->. destruct (getWordAtPosition _ _); reflexivity.
  - intros resolve ->. unfold awaitProvider.
    destruct (settled _) as [[res|]|e]; cbn;
      try (destruct (getWordAtPosition _ _); cbn);
      (split; [reflexivity|]); (split; [reflexivity|]);
      split; intros x Hx; congruence.
Qed.

Lemma locate_first_provider_decides_witness :
  let there := {| range := Range.make 3 1 3 4; text := "bar" |} in
  snd (RenameSkeleton.resolveRenameLocation
         (Sample.skeleton [Sample.locating (Some there)]) Sample.w0)
  = Ok (Some there).
Proof.
  cbn zeta.
  apply (proj2 (@locate_first_provider_decides
                  (Sample.skeleton
                     [Sample.locating (Some {| range := Range.make 3 1 3 4; text := "bar" |})])
                  (Sample.locating (Some {| range := Range.make 3 1 3 4; text := "bar" |}))
                  [] Sample.w0 eq_refl)
           _ eq_refl).
  reflexivity.
Defined.

(** ** The session, path by path *)

(** [run], from a confirmed name to the end of the provider chain. *)
Lemma run_confirmed this w w1 loc newName :
  let skeleton := RenameSkeleton.new (RenameController.ordered this)
                    (RenameController.getModel this) (getPosition (editor w)) in
  let sel := RenameController.inputSelection loc (getSelection (editor w1)) in
  let confirmed := afterInput this loc w1 in
  let chain := RenameSkeleton.provideRenameEdits skeleton newName 0 []
                 (Range.getStartPosition (range loc)) (chainStart confirmed) in
  RenameSkeleton.hasProvider skeleton = true ->
  RenameSkeleton.resolveRenameLocation skeleton w = (w1, Ok (Some loc)) ->
  settled (RenameController.getInput this (range loc) (text loc) (fst sel) (snd sel))
    = Resolved (NewName newName) ->
  RenameController.run this w =
  match snd chain with
  | Ok result =>
      RenameController.onEditsResolved this loc newName
        (EditorState.new (editor confirmed)) result (fst chain)
  | Fail err => RenameController.onEditsRejected err (fst chain)
  end
  /\ ui (fst chain) = ui (chainStart confirmed)
  /\ renameInputVisible (fst chain) = false.
Proof.
  intros skeleton sel confirmed chain HP HL HI.
  destruct (provideRenameEdits_walked skeleton newName 0 []
              (Range.getStartPosition (range loc)) (chainStart confirmed))
    as (cs & _ & _ & Hu & Hv).
  fold chain in Hu, Hv.
  split; [|split; assumption].
  rewrite (run_located this w HP HL). fold skeleton sel. rewrite HI.
  rewrite onInputResolved_newName. reflexivity.
Qed.

(** X5.  When the first provider fails to resolve the location, the
    session ends normally: the error is shown inline at the cursor
    position read when the session began, the input widget is not
    shown, the context key is not touched and no edits are asked for. *)
Theorem run_shows_location_error_inline this provider rest resolve e w :
  let start := getPosition (editor w) in
  let answer := resolve (RenameController.getModel this) start in
  RenameController.ordered this (RenameController.getModel this) = provider :: rest ->
  RenameProvider.resolveRenameLocation provider = Some resolve ->
  settled answer = Rejected e ->
  RenameController.run this w
  = ({| editor := meanwhile answer (editor w);
        renameInputVisible := renameInputVisible w;
        calls := calls w ++ [ResolveLocationCall 0 start (Rejected e)];
        ui := ui w ++ [ShowMessage e start] |}, Ok tt).
Proof.
  intros start answer E HR HA.
  assert (HP : RenameSkeleton.hasProvider
                 (RenameSkeleton.new (RenameController.ordered this)
                    (RenameController.getModel this) (getPosition (editor w))) = true).
  { unfold RenameSkeleton.hasProvider, RenameSkeleton.new; cbn. rewrite E. reflexivity. }
  rewrite (@run_location_failed this w
             {| editor := meanwhile answer (editor w);
                renameInputVisible := renameInputVisible w;
                calls := calls w ++ [ResolveLocationCall 0 start (Rejected e)];
                ui := ui w |} (Thrown e) HP).
  - reflexivity.
  - unfold RenameSkeleton.resolveRenameLocation, RenameSkeleton.new; cbn.
    rewrite E, HR. unfold awaitProvider; cbn. fold start answer. rewrite HA.
    reflexivity.
Qed.

Lemma run_shows_location_error_inline_witness :
  let failing := {| RenameProvider.resolveRenameLocation :=
                      Some (fun _ _ => Sample.typing (Rejected "cannot rename here"));
                    RenameProvider.provideRenameEdits :=
                      fun _ _ _ => Sample.idle (Resolved None) |} in
  snd (RenameController.run (Sample.controller [failing] (Resolved (NewName "bar")))
         Sample.w0) = Ok tt
  /\ ui (fst (RenameController.run
                (Sample.controller [failing] (Resolved (NewName "bar"))) Sample.w0))
     = [ShowMessage "cannot rename here" (Position.make 1 6)].
Proof.
  cbn zeta.
  rewrite (@run_shows_location_error_inline
             (Sample.controller
                [{| RenameProvider.resolveRenameLocation :=
                      Some (fun _ _ => Sample.typing (Rejected "cannot rename here"));
                    RenameProvider.provideRenameEdits :=
                      fun _ _ _ => Sample.idle (Resolved None) |}]
                (Resolved (NewName "bar")))
             _ [] _ "cannot rename here" Sample.w0 eq_refl eq_refl eq_refl).
  split; reflexivity.
Defined.

(** X6.  When the first provider supplies no location and there is no
    word at the cursor, the session ends normally without a trace in
    the user interface: no widget, no message, no notification, the
    context key as it was. *)
Theorem run_without_location_is_silent this provider rest w :
  let skeleton := RenameSkeleton.new (RenameController.ordered this)
                    (RenameController.getModel this) (getPosition (editor w)) in
  let out := RenameController.run this w in
  RenameController.ordered this (RenameController.getModel this) = provider :: rest ->
  noOverride skeleton provider ->
  getWordAtPosition (RenameController.getModel this) (getPosition (editor w)) = None ->
  snd out = Ok tt
  /\ ui (fst out) = ui w
  /\ renameInputVisible (fst out) = renameInputVisible w
  /\ Forall (fun c => isResolveLocation c = true) (skipn (List.length (calls w)) (calls (fst out))).
Proof.
  intros skeleton out E HN HW.
  assert (HP : RenameSkeleton.hasProvider skeleton = true).
  { unfold RenameSkeleton.hasProvider, skeleton, RenameSkeleton.new; cbn.
    rewrite E. reflexivity. }
  destruct (resolveRenameLocation_frame skeleton w) as (Hu & Hv & cs & Hc & _ & HF).
  assert (HL : snd (RenameSkeleton.resolveRenameLocation skeleton w) = Ok None).
  { unfold RenameSkeleton.resolveRenameLocation, noOverride in *.
    unfold skeleton, RenameSkeleton.new in *; cbn in *. rewrite E.
    destruct (RenameProvider.resolveRenameLocation provider) as [resolve|].
    - unfold awaitProvider. rewrite HN. cbn. rewrite HW. reflexivity.
    - rewrite HW. reflexivity. }
  destruct (RenameSkeleton.resolveRenameLocation skeleton w) as [w1 r] eqn:HR.
  cbn [fst snd] in *. subst r.
  unfold out. rewrite (run_not_located this w HP HR). cbn [fst snd].
  split; [reflexivity|]. split; [exact Hu|]. split; [exact Hv|].
  rewrite Hc, skipn_app, Nat.sub_diag, skipn_all. cbn.
  eapply Forall_impl; [|exact HF]. intros c (at_ & answer & ->). reflexivity.
Qed.

Lemma run_without_location_is_silent_witness :
  let blank := {| uri := "file:///b.ts"; getWordAtPosition := fun _ => None |} in
  let this := {| RenameController.getModel := blank;
                 RenameController.ordered := fun _ => [Sample.locating None];
                 RenameController.getInput := fun _ _ _ _ =>
                   Sample.idle (Resolved (NewName "bar"));
                 RenameController.apply := fun _ =>
                   Sample.idle (Resolved {| ariaSummary := "" |}) |} in
  snd (RenameController.run this Sample.w0) = Ok tt
  /\ ui (fst (RenameController.run this Sample.w0)) = [].
Proof.
  cbn zeta.
  destruct (@run_without_location_is_silent
              {| RenameController.getModel :=
                   {| uri := "file:///b.ts"; getWordAtPosition := fun _ => None |};
                 RenameController.ordered := fun _ => [Sample.locating None];
                 RenameController.getInput := fun _ _ _ _ =>
                   Sample.idle (Resolved (NewName "bar"));
                 RenameController.apply := fun _ =>
                   Sample.idle (Resolved {| ariaSummary := "" |}) |}
              (Sample.locating None) [] Sample.w0 eq_refl eq_refl eq_refl)
    as (Hr & Hu & _).
  split; [exact Hr | exact Hu].
Defined.

(** X7.  When the input widget is dismissed, the session ends normally
    right after resetting the context key: the editor gets the focus
    back exactly when the widget asks for it, and neither the providers
    nor the bulk edit service are called. *)
Theorem run_cancelled_asks_for_no_edits this w w1 loc b :
  let skeleton := RenameSkeleton.new (RenameController.ordered this)
                    (RenameController.getModel this) (getPosition (editor w)) in
  let sel := RenameController.inputSelection loc (getSelection (editor w1)) in
  let input := RenameController.getInput this (range loc) (text loc) (fst sel) (snd sel) in
  RenameSkeleton.hasProvider skeleton = true ->
  RenameSkeleton.resolveRenameLocation skeleton w = (w1, Ok (Some loc)) ->
  settled input = Resolved (FocusFlag b) ->
  RenameController.run this w
  = ({| editor := meanwhile input (editor w1);
        renameInputVisible := false;
        calls := calls w1;
        ui := ui w ++ [ContextKeySet true;
                       GetInput (range loc) (text loc) (fst sel) (snd sel);
                       ContextKeyReset] ++ (if b then [Focus] else []) |}, Ok tt).
Proof.
  intros skeleton sel input HP HL HI.
  destruct (resolveRenameLocation_frame skeleton w) as (Hu & _).
  rewrite HL in Hu; cbn [fst] in Hu.
  rewrite (run_located this w HP HL). fold skeleton sel input. rewrite HI.
  unfold RenameController.onInputResolved, bind, resetVisible, afterInput.
  fold sel input. cbn. rewrite Hu.
  destruct b; unfold emit, ret; cbn; rewrite <- ?app_assoc; reflexivity.
Qed.

Lemma run_cancelled_asks_for_no_edits_witness :
  RenameController.run
    (Sample.controller [Sample.succeeding] (Resolved (FocusFlag true))) Sample.w0
  = ({| editor := Sample.ed0; renameInputVisible := false; calls := [];
        ui := [ContextKeySet true; GetInput (Range.make 1 5 1 12) "fooBarX" 2 4;
               ContextKeyReset; Focus] |}, Ok tt).
Proof.
  apply (@run_cancelled_asks_for_no_edits
           (Sample.controller [Sample.succeeding] (Resolved (FocusFlag true)))
           Sample.w0 Sample.w0 {| range := Range.make 1 5 1 12; text := "fooBarX" |}
           true eq_refl eq_refl eq_refl).
Defined.

(** X8.  When the input widget fails, the session fails with the same
    error after resetting the context key; the editor is not given the
    focus, and neither the providers nor the bulk edit service are
    called. *)
Theorem run_passes_on_widget_error this w w1 loc e :
  let skeleton := RenameSkeleton.new (RenameController.ordered this)
                    (RenameController.getModel this) (getPosition (editor w)) in
  let sel := RenameController.inputSelection loc (getSelection (editor w1)) in
  let input := RenameController.getInput this (range loc) (text loc) (fst sel) (snd sel) in
  RenameSkeleton.hasProvider skeleton = true ->
  RenameSkeleton.resolveRenameLocation skeleton w = (w1, Ok (Some loc)) ->
  settled input = Rejected e ->
  RenameController.run this w
  = ({| editor := meanwhile input (editor w1);
        renameInputVisible := false;
        calls := calls w1;
        ui := ui w ++ [ContextKeySet true;
                       GetInput (range loc) (text loc) (fst sel) (snd sel);
                       ContextKeyReset] |}, Fail (Thrown e)).
Proof.
  intros skeleton sel input HP HL HI.
  destruct (resolveRenameLocation_frame skeleton w) as (Hu & _).
  rewrite HL in Hu; cbn [fst] in Hu.
  rewrite (run_located this w HP HL). fold skeleton sel input. rewrite HI.
  unfold RenameController.onInputRejected, bind, resetVisible, throw, afterInput.
  fold sel input. cbn. rewrite Hu, <- app_assoc. reflexivity.
Qed.

Lemma run_passes_on_widget_error_witness :
  RenameController.run
    (Sample.controller [Sample.succeeding] (Rejected "widget failed")) Sample.w0
  = ({| editor := Sample.ed0; renameInputVisible := false; calls := [];
        ui := [ContextKeySet true; GetInput (Range.make 1 5 1 12) "fooBarX" 2 4;
               ContextKeyReset] |}, Fail (Thrown "widget failed")).
Proof.
  apply (@run_passes_on_widget_error
           (Sample.controller [Sample.succeeding] (Rejected "widget failed"))
           Sample.w0 Sample.w0 {| range := Range.make 1 5 1 12; text := "fooBarX" |}
           "widget failed" eq_refl eq_refl eq_refl).
Defined.

(** X9.  When the provider chain fails with an error, the session
    raises the error notification "Rename failed to execute." and fails
    with that same error; the bulk edit service is not called and the
    editor is as the chain left it. *)
Theorem run_notifies_chain_error this w w1 loc newName err :
  let skeleton := RenameSkeleton.new (RenameController.ordered this)
                    (RenameController.getModel this) (getPosition (editor w)) in
  let sel := RenameController.inputSelection loc (getSelection (editor w1)) in
  let confirmed := afterInput this loc w1 in
  let chain := RenameSkeleton.provideRenameEdits skeleton newName 0 []
                 (Range.getStartPosition (range loc)) (chainStart confirmed) in
  let out := RenameController.run this w in
  RenameSkeleton.hasProvider skeleton = true ->
  RenameSkeleton.resolveRenameLocation skeleton w = (w1, Ok (Some loc)) ->
  settled (RenameController.getInput this (range loc) (text loc) (fst sel) (snd sel))
    = Resolved (NewName newName) ->
  snd chain = Fail err ->
  snd out = Fail err
  /\ ui (fst out) = ui (chainStart confirmed) ++ [NotifyError "Rename failed to execute."]
  /\ editor (fst out) = editor (fst chain)
  /\ calls (fst out) = calls (fst chain)
  /\ renameInputVisible (fst out) = false.
Proof.
  intros skeleton sel confirmed chain out HP HL HI HC.
  destruct (run_confirmed this w HP HL HI) as (E & Hu & Hv).
  fold skeleton confirmed chain in E, Hu, Hv.
  unfold out. rewrite E, HC. cbn. rewrite Hu, Hv. auto.
Qed.

Lemma run_notifies_chain_error_witness :
  let out := RenameController.run
               (Sample.controller [Sample.rejecting "no"; Sample.throwing "boom"]
                  (Resolved (NewName "bar"))) Sample.w0 in
  snd out = Fail (Thrown "boom")
  /\ ui (fst out)
     = [ContextKeySet true; GetInput (Range.make 1 5 1 12) "fooBarX" 2 4;
        ContextKeyReset; Focus; ShowWhile 250; NotifyError "Rename failed to execute."].
Proof.
  cbn zeta.
  destruct (@run_notifies_chain_error
              (Sample.controller [Sample.rejecting "no"; Sample.throwing "boom"]
                 (Resolved (NewName "bar")))
              Sample.w0 Sample.w0 {| range := Range.make 1 5 1 12; text := "fooBarX" |}
              "bar" (Thrown "boom") eq_refl eq_refl eq_refl eq_refl)
    as (Hr & Hu & _).
  split; [exact Hr | exact Hu].
Defined.

(** X10.  When the chain returns a result without a truthy reject
    reason, that result is handed to the bulk edit service, once; if
    the service succeeds the session ends normally, and the summary is
    announced exactly when it is not empty, naming the old text, the new
    name and the summary. *)
Theorem run_applies_and_announces this w w1 loc newName result applied :
  let skeleton := RenameSkeleton.new (RenameController.ordered this)
                    (RenameController.getModel this) (getPosition (editor w)) in
  let sel := RenameController.inputSelection loc (getSelection (editor w1)) in
  let confirmed := afterInput this loc w1 in
  let chain := RenameSkeleton.provideRenameEdits skeleton newName 0 []
                 (Range.getStartPosition (range loc)) (chainStart confirmed) in
  let out := RenameController.run this w in
  RenameSkeleton.hasProvider skeleton = true ->
  RenameSkeleton.resolveRenameLocation skeleton w = (w1, Ok (Some loc)) ->
  settled (RenameController.getInput this (range loc) (text loc) (fst sel) (snd sel))
    = Resolved (NewName newName) ->
  snd chain = Ok result ->
  truthy (rejectReason result) = false ->
  settled (RenameController.apply this result) = Resolved applied ->
  snd out = Ok tt
  /\ editor (fst out) = meanwhile (RenameController.apply this result) (editor (fst chain))
  /\ calls (fst out) = calls (fst chain)
  /\ ui (fst out)
     = ui (chainStart confirmed)
       ++ Apply result
          :: (if nonEmpty (ariaSummary applied)
              then [Alert (ariaMessage (text loc) newName (ariaSummary applied))]
              else []).
Proof.
  intros skeleton sel confirmed chain out HP HL HI HC HT HA.
  destruct (run_confirmed this w HP HL HI) as (E & Hu & Hv).
  fold skeleton confirmed chain in E, Hu, Hv.
  unfold out. rewrite E, HC.
  unfold RenameController.onEditsResolved, truthy in *.
  destruct (rejectReason result) as [[|c s]|]; try discriminate;
    unfold bind, awaitUi; rewrite HA;
    destruct (nonEmpty (ariaSummary applied)); unfold emit, ret;
    cbn [fst snd ui editor calls renameInputVisible];
    rewrite Hu, <- ?app_assoc; auto.
Qed.

Lemma run_applies_and_announces_witness :
  ui (fst (RenameController.run
             (Sample.controller [Sample.rejecting "no"; Sample.succeeding]
                (Resolved (NewName "bar"))) Sample.w0))
  = [ContextKeySet true; GetInput (Range.make 1 5 1 12) "fooBarX" 2 4;
     ContextKeyReset; Focus; ShowWhile 250; Apply Sample.fooToBar;
     Alert "Successfully renamed 'fooBarX' to 'bar'. Summary: 1 edit"].
Proof.
  destruct (@run_applies_and_announces
              (Sample.controller [Sample.rejecting "no"; Sample.succeeding]
                 (Resolved (NewName "bar")))
              Sample.w0 Sample.w0 {| range := Range.make 1 5 1 12; text := "fooBarX" |}
              "bar" Sample.fooToBar {| ariaSummary := "1 edit" |}
              eq_refl eq_refl eq_refl eq_refl eq_refl eq_refl)
    as (_ & _ & _ & Hu).
  exact Hu.
Defined.

(** X11.  When the bulk edit service fails, the session fails with the
    service's error and nothing more happens: the error callback that
    raises "Rename failed to execute." guards the provider chain only,
    so that notification is not raised, and nothing is announced. *)
Theorem run_apply_failure_is_not_notified this w w1 loc newName result e :
  let skeleton := RenameSkeleton.new (RenameController.ordered this)
                    (RenameController.getModel this) (getPosition (editor w)) in
  let sel := RenameController.inputSelection loc (getSelection (editor w1)) in
  let confirmed := afterInput this loc w1 in
  let chain := RenameSkeleton.provideRenameEdits skeleton newName 0 []
                 (Range.getStartPosition (range loc)) (chainStart confirmed) in
  let out := RenameController.run this w in
  RenameSkeleton.hasProvider skeleton = true ->
  RenameSkeleton.resolveRenameLocation skeleton w = (w1, Ok (Some loc)) ->
  settled (RenameController.getInput this (range loc) (text loc) (fst sel) (snd sel))
    = Resolved (NewName newName) ->
  snd chain = Ok result ->
  truthy (rejectReason result) = false ->
  settled (RenameController.apply this result) = Rejected e ->
  snd out = Fail (Thrown e)
  /\ ui (fst out) = ui (chainStart confirmed) ++ [Apply result]
  /\ (forall msg, ~ In (NotifyError msg) (skipn (List.length (ui w)) (ui (fst out)))).
Proof.
  intros skeleton sel confirmed chain out HP HL HI HC HT HA.
  destruct (run_confirmed this w HP HL HI) as (E & Hu & Hv).
  fold skeleton confirmed chain in E, Hu, Hv.
  destruct (resolveRenameLocation_frame skeleton w) as (Hu1 & _).
  rewrite HL in Hu1; cbn [fst] in Hu1.
  assert (U : snd out = Fail (Thrown e)
              /\ ui (fst out) = ui (chainStart confirmed) ++ [Apply result]).
  { unfold out. rewrite E, HC.
    unfold RenameController.onEditsResolved, truthy in *.
    destruct (rejectReason result) as [[|c s]|]; try discriminate;
      unfold bind, awaitUi; rewrite HA;
      cbn [fst snd ui editor calls renameInputVisible]; rewrite Hu; auto. }
  destruct U as [U1 U2]. split; [exact U1|]. split; [exact U2|].
  intros msg. rewrite U2. cbn [chainStart afterInput confirmed ui]. rewrite Hu1.
  rewrite <- !app_assoc, skipn_app, Nat.sub_diag, skipn_all. cbn.
  intros H. repeat (destruct H as [H|H]; [discriminate|]). exact H.
Qed.

Lemma run_apply_failure_is_not_notified_witness :
  let this := {| RenameController.getModel := Sample.doc;
                 RenameController.ordered := fun _ => [Sample.succeeding];
                 RenameController.getInput := fun _ _ _ _ =>
                   Sample.idle (Resolved (NewName "bar"));
                 RenameController.apply := fun _ =>
                   Sample.idle (Rejected "disk full") |} in
  snd (RenameController.run this Sample.w0) = Fail (Thrown "disk full")
  /\ ui (fst (RenameController.run this Sample.w0))
     = [ContextKeySet true; GetInput (Range.make 1 5 1 12) "fooBarX" 2 4;
        ContextKeyReset; Focus; ShowWhile 250; Apply Sample.fooToBar].
Proof.
  cbn zeta.
  destruct (@run_apply_failure_is_not_notified
              {| RenameController.getModel := Sample.doc;
                 RenameController.ordered := fun _ => [Sample.succeeding];
                 RenameController.getInput := fun _ _ _ _ =>
                   Sample.idle (Resolved (NewName "bar"));
                 RenameController.apply := fun _ =>
                   Sample.idle (Rejected "disk full") |}
              Sample.w0 Sample.w0 {| range := Range.make 1 5 1 12; text := "fooBarX" |}
              "bar" Sample.fooToBar "disk full"
              eq_refl eq_refl eq_refl eq_refl eq_refl eq_refl) as (Hr & Hu & _).
  split; [exact Hr | exact Hu].
Defined.

(** ** The session as a whole *)

Lemma callsOn_edits this newName i l :
  Forall (fun c => exists j answer,
            c = ProvideEditsCall j (RenameSkeleton.position this) newName answer)
    (callsOn this newName i l).
Proof.
  revert i; induction l as [|p l IH]; intros i; cbn; constructor; [|apply IH].
  unfold callOf; eauto.
Qed.

(** What the fulfilment callback of the input widget adds: at most one
    call of the bulk edit service, and only for a result without a
    truthy reject reason; invocations of [provideRenameEdits] only, all
    at the skeleton's position. *)
Lemma onInputResolved_effects this skeleton loc v w2 :
  let out := RenameController.onInputResolved this skeleton loc v w2 in
  (exists tail, ui (fst out) = ui w2 ++ tail
     /\ (List.length (filter isApply tail) <= 1)%nat
     /\ (forall edit, In (Apply edit) tail -> truthy (rejectReason edit) = false))
  /\ (exists cs, calls (fst out) = calls w2 ++ cs
        /\ Forall (fun c => exists j name answer,
                     c = ProvideEditsCall j (RenameSkeleton.position skeleton) name answer)
             cs).
Proof.
  destruct v as [newName|b]; cbn zeta.
  - rewrite onInputResolved_newName; cbn zeta.
    destruct (provideRenameEdits_walked skeleton newName 0 []
                (Range.getStartPosition (range loc)) (chainStart w2))
      as (cs & Hw & Hc & Hu & Hv).
    destruct (walked_calls Hw) as (k & _ & Hk).
    assert (C : exists cs', calls w2 ++ cs = calls w2 ++ cs'
      /\ Forall (fun c => exists j name answer,
                   c = ProvideEditsCall j (RenameSkeleton.position skeleton) name answer)
           cs').
    { exists cs. split; [reflexivity|]. rewrite Hk.
      eapply Forall_impl; [|apply callsOn_edits].
      intros c (j & answer & ->). eauto. }
    destruct (RenameSkeleton.provideRenameEdits _ _ _ _ _ _) as [w3 [result|err]];
      cbn [fst snd] in *.
    + unfold RenameController.onEditsResolved.
      destruct (rejectReason result) as [[|c s]|] eqn:R.
      2:{ unfold bind, getEditor.
          destruct (EditorState.validate _ _); unfold emit;
            cbn [fst snd ui editor calls renameInputVisible];
            rewrite Hu, Hc; cbn [chainStart ui calls];
            (split; [|exact C]); rewrite <- app_assoc;
            eexists; (split; [reflexivity|]); cbn;
            (split; [lia|]);
            intros edit H; repeat (destruct H as [H|H]; [discriminate|]); contradiction. }
      all: unfold bind, awaitUi; destruct (settled _) as [applied|e];
        try destruct (nonEmpty _); unfold emit, ret;
        cbn [fst snd ui editor calls renameInputVisible];
        rewrite Hu, Hc; cbn [chainStart ui calls];
        (split; [|exact C]); rewrite <- ?app_assoc;
        eexists; (split; [reflexivity|]); cbn;
        (split; [lia|]);
        intros edit H;
        repeat (destruct H as [H|H];
                [try discriminate; injection H as <-; rewrite R; reflexivity|]);
        contradiction.
    + unfold RenameController.onEditsRejected, bind, emit, throw.
      cbn [fst snd ui editor calls renameInputVisible].
      rewrite Hu, Hc; cbn [chainStart ui calls].
      split; [|exact C]. rewrite <- app_assoc.
      eexists; split; [reflexivity|]; cbn. split; [lia|].
      intros edit H; repeat (destruct H as [H|H]; [discriminate|]); contradiction.
  - split.
    + destruct b; cbn; rewrite <- ?app_assoc;
        eexists; (split; [reflexivity|]); cbn; (split; [lia|]);
        intros edit H; repeat (destruct H as [H|H]; [discriminate|]); contradiction.
    + exists []. destruct b; cbn; rewrite app_nil_r; split; auto.
Qed.

(** X12.  In any session the input widget is shown at most once and the
    bulk edit service is called at most once, and what it is given
    never carries a truthy reject reason. *)
Theorem run_applies_at_most_once this w :
  let out := RenameController.run this w in
  exists evs,
    ui (fst out) = ui w ++ evs
    /\ (List.length (filter isGetInput evs) <= 1)%nat
    /\ (List.length (filter isApply evs) <= 1)%nat
    /\ (forall edit, In (Apply edit) evs -> truthy (rejectReason edit) = false).
Proof.
  cbn zeta.
  set (skeleton := RenameSkeleton.new (RenameController.ordered this)
                     (RenameController.getModel this) (getPosition (editor w))).
  destruct (RenameSkeleton.hasProvider skeleton) eqn:HP.
  2:{ rewrite (run_no_provider this w HP). exists []. rewrite app_nil_r. cbn.
      split; [reflexivity|]. split; [lia|]. split; [lia|]. intros edit []. }
  destruct (resolveRenameLocation_frame skeleton w) as (Hu & _).
  destruct (RenameSkeleton.resolveRenameLocation skeleton w) as [w1 [[loc|]|err]] eqn:HL;
    cbn [fst] in Hu.
  - rewrite (run_located this w HP HL). fold skeleton.
    destruct (settled _) as [v|e].
    + destruct (onInputResolved_effects this skeleton loc v (afterInput this loc w1))
        as ((tail & Ht & Hn & Hok) & _).
      destruct (onInputResolved_tail this skeleton loc v (afterInput this loc w1))
        as (_ & tail' & Ht' & Hq).
      rewrite Ht' in Ht. apply app_inv_head in Ht. subst tail.
      eexists. split.
      { rewrite Ht'. cbn [afterInput ui]. rewrite Hu, <- app_assoc. reflexivity. }
      cbn [app filter isGetInput isApply List.length] in *.
      split; [|split].
      * assert (Z : filter isGetInput tail' = []).
        { clear - Hq. induction Hq as [|x l Hx _ IH]; cbn; [reflexivity|].
          destruct x; cbn in *; try discriminate; exact IH. }
        rewrite Z. cbn. lia.
      * exact Hn.
      * intros edit [H|[H|H]]; try discriminate. apply Hok. exact H.
    + eexists. split.
      { cbn. rewrite Hu, <- app_assoc. reflexivity. }
      cbn. split; [lia|]. split; [lia|].
      intros edit H; repeat (destruct H as [H|H]; [discriminate|]); contradiction.
  - rewrite (run_not_located this w HP HL). exists []. cbn. rewrite app_nil_r.
    split; [auto|]. split; [lia|]. split; [lia|]. intros edit [].
  - rewrite (run_location_failed this w HP HL). eexists. split.
    { cbn. rewrite Hu. reflexivity. }
    cbn. split; [lia|]. split; [lia|].
    intros edit H; repeat (destruct H as [H|H]; [discriminate|]); contradiction.
Qed.

(** [resolveRenameLocation] invokes nobody but the first provider, at
    the skeleton's position. *)
Lemma resolveRenameLocation_calls this w :
  exists cs,
    calls (fst (RenameSkeleton.resolveRenameLocation this w)) = calls w ++ cs
    /\ (List.length cs <= 1)%nat
    /\ Forall (fun c => exists answer,
                 c = ResolveLocationCall 0 (RenameSkeleton.position this) answer) cs.
Proof.
  unfold RenameSkeleton.resolveRenameLocation.
  destruct (RenameSkeleton._provider this) as [|provider rest]; cbn.
  { exists []; rewrite app_nil_r; auto. }
  destruct (RenameProvider.resolveRenameLocation provider) as [resolve|].
  - unfold awaitProvider.
    destruct (settled _) as [[res|]|e] eqn:A; cbn;
      try destruct (getWordAtPosition _ _); cbn;
      (eexists; split; [reflexivity|]; split; [cbn; lia|]; repeat constructor; eauto).
  - destruct (getWordAtPosition _ _); cbn; exists []; rewrite app_nil_r; auto.
Qed.

(** X13.  Every provider invocation of a session, be it for the
    location or for the edits, carries the cursor position read when
    the session began; the location is asked for at most once, and of
    the first provider only. *)
Theorem run_hands_providers_the_initial_cursor this w :
  let out := RenameController.run this w in
  let start := getPosition (editor w) in
  exists cs,
    calls (fst out) = calls w ++ cs
    /\ (List.length (filter isResolveLocation cs) <= 1)%nat
    /\ Forall (fun c => match c with
                        | ResolveLocationCall i at_ _ => i = 0%nat /\ at_ = start
                        | ProvideEditsCall _ at_ _ _ => at_ = start
                        end) cs.
Proof.
  cbn zeta.
  set (skeleton := RenameSkeleton.new (RenameController.ordered this)
                     (RenameController.getModel this) (getPosition (editor w))).
  destruct (RenameSkeleton.hasProvider skeleton) eqn:HP.
  2:{ rewrite (run_no_provider this w HP). exists []. rewrite app_nil_r. cbn.
      split; [reflexivity|]. split; [lia|]. constructor. }
  destruct (resolveRenameLocation_calls skeleton w) as (cs1 & Hc1 & Hn1 & HF1).
  assert (F1 : Forall (fun c => match c with
                        | ResolveLocationCall i at_ _ =>
                            i = 0%nat /\ at_ = getPosition (editor w)
                        | ProvideEditsCall _ at_ _ _ => at_ = getPosition (editor w)
                        end) cs1).
  { eapply Forall_impl; [|exact HF1]. intros c (answer & ->). auto. }
  assert (N1 : (List.length (filter isResolveLocation cs1) <= 1)%nat).
  { pose proof (filter_length_le isResolveLocation cs1). lia. }
  destruct (RenameSkeleton.resolveRenameLocation skeleton w) as [w1 [[loc|]|err]] eqn:HL;
    cbn [fst] in Hc1.
  - rewrite (run_located this w HP HL). fold skeleton.
    destruct (settled _) as [v|e].
    + destruct (onInputResolved_effects this skeleton loc v (afterInput this loc w1))
        as (_ & cs2 & Hc2 & HF2).
      exists (cs1 ++ cs2). rewrite Hc2. cbn [afterInput calls].
      rewrite Hc1, <- app_assoc. split; [reflexivity|]. split.
      * rewrite filter_app, length_app.
        assert (Z : filter isResolveLocation cs2 = []).
        { clear - HF2. induction HF2 as [|x l Hx _ IH]; cbn; [reflexivity|].
          destruct Hx as (j & name & answer & ->). exact IH. }
        rewrite Z. cbn. lia.
      * apply Forall_app. split; [exact F1|].
        eapply Forall_impl; [|exact HF2]. intros c (j & name & answer & ->).
        reflexivity.
    + exists cs1. cbn. auto.
  - rewrite (run_not_located this w HP HL). exists cs1. cbn. auto.
  - rewrite (run_location_failed this w HP HL). exists cs1. cbn. auto.
Qed.

(** ** The headless entry points *)

(** X14.  [rename] goes straight to the provider chain: it asks no
    provider for a rename location, hands every provider it invokes the
    position it was given, and touches neither the user interface nor
    the context key.  It does not check for providers either: with an
    empty registry it returns, without invoking anybody, a result with
    no edits and the empty string as reject reason. *)
Theorem rename_never_locates ordered model position newName w :
  let out := rename ordered model position newName w in
  ui (fst out) = ui w
  /\ renameInputVisible (fst out) = renameInputVisible w
  /\ (exists cs, calls (fst out) = calls w ++ cs
        /\ Forall (fun c => exists j answer,
                     c = ProvideEditsCall j position newName answer) cs)
  /\ (ordered model = [] ->
      out = (w, Ok {| edits := None; rejectReason := Some "" |})).
Proof.
  cbn zeta. unfold rename.
  set (skeleton := RenameSkeleton.new ordered model position).
  destruct (provideRenameEdits_walked skeleton newName 0 []
              (RenameSkeleton.position skeleton) w) as (cs & Hw & Hc & Hu & Hv).
  destruct (walked_calls Hw) as (k & _ & Hk).
  split; [exact Hu|]. split; [exact Hv|]. split.
  - exists cs. split; [exact Hc|]. rewrite Hk.
    apply (callsOn_edits skeleton newName 0).
  - intros E. rewrite provideRenameEdits_unfold.
    unfold skeleton, RenameSkeleton.new; cbn. rewrite E. reflexivity.
Qed.

Lemma rename_never_locates_witness :
  rename (fun _ => []) Sample.doc (Position.make 1 6) "bar" Sample.w0
  = (Sample.w0, Ok {| edits := None; rejectReason := Some "" |}).
Proof.
  apply (proj2 (proj2 (proj2 (@rename_never_locates (fun _ => []) Sample.doc
                                 (Position.make 1 6) "bar" Sample.w0)))).
  reflexivity.
Defined.

Lemma getProperty_missing args name :
  (forall v, ~ In (name, v) args) -> getProperty args name = JsUndefined.
Proof.
  induction args as [|[k v] args IH]; intros H; cbn; [reflexivity|].
  destruct (String.eqb k name) eqn:E.
  - apply String.eqb_eq in E. subst k. exfalso. apply (H v). left. reflexivity.
  - apply IH. intros v' Hin. apply (H v'). right. exact Hin.
Qed.

(** X15.  Called with arguments that have no [newName] entry at all,
    [_executeDocumentRenameProvider] fails with the illegal-argument
    error before any provider is invoked: the world is left as it
    was. *)
Theorem command_without_newName_invokes_nobody ordered model position args w :
  (forall v, ~ In ("newName", v) args) ->
  _executeDocumentRenameProvider ordered model position args w
  = (w, Fail (IllegalArgument "newName")).
Proof.
  unfold _executeDocumentRenameProvider. intros H.
  rewrite (getProperty_missing args "newName" H). reflexivity.
Qed.

Lemma command_without_newName_invokes_nobody_witness :
  _executeDocumentRenameProvider (fun _ => [Sample.succeeding]) Sample.doc
    (Position.make 1 6) [("name", JsString "bar")] Sample.w0
  = (Sample.w0, Fail (IllegalArgument "newName")).
Proof.
  apply (@command_without_newName_invokes_nobody (fun _ => [Sample.succeeding])
           Sample.doc (Position.make 1 6) [("name", JsString "bar")] Sample.w0).
  intros v [H|[]]. discriminate.
Defined.

(** ** The pre-selected part of the symbol text *)

(** X16.  For a resolved range on a single line and a selection that is
    non-empty, on one line and inside that range, the clamping is idle:
    the offsets are the selection's columns less the range's start
    column, they lie between 0 and the width of the range, and the
    start lies before the end for a selection whose columns are in
    order. *)
Theorem inputSelection_within_range loc sel :
  let r := range loc in
  Range.startLineNumber r = Range.endLineNumber r ->
  Range.isEmpty sel = false ->
  Range.spansMultipleLines sel = false ->
  Range.containsRange r sel = true ->
  RenameController.inputSelection loc sel
  = ((Range.startColumn sel - Range.startColumn r)%Z,
     (Range.endColumn sel - Range.startColumn r)%Z)
  /\ (0 <= Range.startColumn sel - Range.startColumn r)%Z
  /\ (Range.endColumn sel - Range.startColumn r
      <= Range.endColumn r - Range.startColumn r)%Z
  /\ ((Range.startColumn sel <= Range.endColumn sel)%Z ->
      (Range.startColumn sel - Range.startColumn r
       < Range.endColumn sel - Range.startColumn r)%Z).
Proof.
  intros r HR HE HS HC.
  assert (B : (Range.startColumn r <= Range.startColumn sel)%Z
              /\ (Range.endColumn sel <= Range.endColumn r)%Z
              /\ Range.startLineNumber sel = Range.endLineNumber sel).
  { unfold Range.containsRange, Range.spansMultipleLines in *.
    destruct (_ || _)%bool eqn:C1; [discriminate|].
    destruct (_ || _)%bool eqn:C2 in HC; [discriminate|].
    destruct (_ && _)%bool eqn:C3 in HC; [discriminate|].
    destruct (_ && _)%bool eqn:C4 in HC; [discriminate|].
    apply orb_false_iff in C1 as [A1 A2], C2 as [A3 A4].
    apply Z.ltb_ge in A1, A2, A3, A4, HS.
    apply andb_false_iff in C3, C4.
    rewrite Z.eqb_neq, Z.ltb_ge in C3, C4. lia. }
  destruct B as (B1 & B2 & B3).
  unfold RenameController.inputSelection. fold r. rewrite HE, HS, HC. cbn [negb andb].
  split; [f_equal; lia|]. split; [lia|]. split; [lia|].
  intros Hord. unfold Range.isEmpty in HE.
  apply andb_false_iff in HE. rewrite !Z.eqb_neq in HE. lia.
Qed.

Lemma inputSelection_within_range_witness :
  RenameController.inputSelection
    {| range := Range.make 1 5 1 12; text := "fooBarX" |} (Range.make 1 5 1 12)
  = (0%Z, 7%Z).
Proof.
  apply (proj1 (@inputSelection_within_range
                  {| range := Range.make 1 5 1 12; text := "fooBarX" |}
                  (Range.make 1 5 1 12) eq_refl eq_refl eq_refl eq_refl)).
Defined.

(** ** The baseline of the staleness check *)

(** X17.  The editor is compared with its state at the confirmation of
    the name, not at the start of the session: whatever the user did to
    the editor while the location was resolved or the widget was open,
    a rejection is shown inline, at the cursor, as long as the editor
    is the same after the provider chain as before it. *)
Theorem run_measures_staleness_from_confirmation this w w1 loc newName result reason :
  let skeleton := RenameSkeleton.new (RenameController.ordered this)
                    (RenameController.getModel this) (getPosition (editor w)) in
  let sel := RenameController.inputSelection loc (getSelection (editor w1)) in
  let confirmed := afterInput this loc w1 in
  let chain := RenameSkeleton.provideRenameEdits skeleton newName 0 []
                 (Range.getStartPosition (range loc)) (chainStart confirmed) in
  let out := RenameController.run this w in
  RenameSkeleton.hasProvider skeleton = true ->
  RenameSkeleton.resolveRenameLocation skeleton w = (w1, Ok (Some loc)) ->
  settled (RenameController.getInput this (range loc) (text loc) (fst sel) (snd sel))
    = Resolved (NewName newName) ->
  snd chain = Ok result ->
  rejectReason result = Some reason ->
  reason <> "" ->
  editor (fst chain) = editor confirmed ->
  snd out = Ok tt
  /\ ui (fst out)
     = ui w ++ [ContextKeySet true;
                GetInput (range loc) (text loc) (fst sel) (snd sel);
                ContextKeyReset; Focus; ShowWhile 250;
                ShowMessage reason (getPosition (editor confirmed))].
Proof.
  intros skeleton sel confirmed chain out HP HL HI HC HR HN HE.
  destruct (run_confirmed this w HP HL HI) as (E & Hu & Hv).
  fold skeleton confirmed chain in E, Hu, Hv.
  destruct (resolveRenameLocation_frame skeleton w) as (Hu1 & _).
  rewrite HL in Hu1; cbn [fst] in Hu1.
  assert (V : EditorState.validate (EditorState.new (editor confirmed))
                (editor (fst chain)) = true).
  { rewrite HE. apply validate_true. unfold changed. intros [H|[H|[H|[H|H]]]]; auto. }
  unfold out. rewrite E, HC.
  unfold RenameController.onEditsResolved. rewrite HR.
  destruct reason as [|c s]; [congruence|].
  unfold bind, getEditor. rewrite V. unfold emit.
  cbn [fst snd ui editor calls renameInputVisible].
  rewrite Hu, HE. cbn [chainStart afterInput confirmed ui]. fold sel.
  rewrite Hu1, <- !app_assoc. split; reflexivity.
Qed.

Lemma run_measures_staleness_from_confirmation_witness :
  let this := {| RenameController.getModel := Sample.doc;
                 RenameController.ordered := fun _ => [Sample.rejecting "no"];
                 RenameController.getInput := fun _ _ _ _ =>
                   Sample.typing (Resolved (NewName "bar"));
                 RenameController.apply := fun _ =>
                   Sample.idle (Resolved {| ariaSummary := "" |}) |} in
  ui (fst (RenameController.run this Sample.w0))
  = [ContextKeySet true; GetInput (Range.make 1 5 1 12) "fooBarX" 2 4;
     ContextKeyReset; Focus; ShowWhile 250; ShowMessage "no" (Position.make 1 6)].
Proof.
  cbn zeta.
  destruct (@run_measures_staleness_from_confirmation
              {| RenameController.getModel := Sample.doc;
                 RenameController.ordered := fun _ => [Sample.rejecting "no"];
                 RenameController.getInput := fun _ _ _ _ =>
                   Sample.typing (Resolved (NewName "bar"));
                 RenameController.apply := fun _ =>
                   Sample.idle (Resolved {| ariaSummary := "" |}) |}
              Sample.w0 Sample.w0 {| range := Range.make 1 5 1 12; text := "fooBarX" |}
              "bar" (Sample.rejection "no") "no"
              eq_refl eq_refl eq_refl eq_refl eq_refl
              (fun H : "no" = "" => eq_ind "no" (fun s => match s with
                                                           | EmptyString => False
                                                           | String _ _ => True
                                                           end) I "" H)
              eq_refl) as (_ & Hu).
  exact Hu.
Defined.
